(** * DS3231 real-time-clock driver (esphome/components/ds3231/ds3231.cpp)

    A shallow embedding of the driver: the mirrored register image with its
    bit-fields, the register access procedures over a two-wire bus that may
    refuse a transaction, and the public operations [setup], [read_time],
    [write_time], [set_alarm], [set_sqw_mode] and [reset_alarm].

    Every operation is a function from the component's state to a result, the
    next state and the list of effects it performed (bus transactions, log
    lines, host-clock updates), in the order the code performs them. *)

From Stdlib Require Import ZArith List Bool String Lia.
Import ListNotations.
Local Open Scope Z_scope.

(** ** Integer conversions *)

Definition uint8_t (x : Z) : Z := x mod 2 ^ 8.
Definition uint16_t (x : Z) : Z := x mod 2 ^ 16.

(** Conversion of an integer to [bool]: anything but zero is [true]. *)
Definition to_bool (x : Z) : bool := negb (x =? 0).

(** ** Register addresses and alarm type masks (ds3231.cpp, lines 13-26) *)

Definition DS3231_RTC_ADDRESS : Z := 0x00.
Definition DS3231_ALARM_1_ADDRESS : Z := 0x07.
Definition DS3231_ALARM_2_ADDRESS : Z := 0x0B.
Definition DS3231_CONTROL_ADDRESS : Z := 0x0E.
Definition DS3231_STATUS_ADDRESS : Z := 0x0F.

Definition DS3231_ALARM_TYPE_M1 : Z := 0x01.
Definition DS3231_ALARM_TYPE_M2 : Z := 0x02.
Definition DS3231_ALARM_TYPE_M3 : Z := 0x04.
Definition DS3231_ALARM_TYPE_M4 : Z := 0x08.
Definition DS3231_ALARM_TYPE_DAY_MODE : Z := 0x10.
Definition DS3231_ALARM_TYPE_INTERUPT : Z := 0x40.
Definition DS3231_ALARM_TYPE_ALARM_NUMBER : Z := 0x80.

(** ** Bit-fields over a raw register group

    Each register group is a union of a byte array [raw] and a struct of
    bit-fields [reg].  The group is kept as the integer whose byte [i] is
    [raw[i]]; a bit-field is a run of [bf_width] bits starting at bit [bf_bit]
    of byte [bf_byte].  Storing into a bit-field keeps the low [bf_width] bits
    of the value and leaves every other bit of the group alone. *)

Record bitfield : Type := bf { bf_byte : Z; bf_bit : Z; bf_width : Z }.

Definition bf_pos (f : bitfield) : Z := 8 * bf_byte f + bf_bit f.

Definition get_field (raw : Z) (f : bitfield) : Z :=
  Z.land (Z.shiftr raw (bf_pos f)) (Z.ones (bf_width f)).

Definition set_field (raw : Z) (f : bitfield) (v : Z) : Z :=
  Z.lor (Z.ldiff raw (Z.shiftl (Z.ones (bf_width f)) (bf_pos f)))
        (Z.shiftl (Z.land v (Z.ones (bf_width f))) (bf_pos f)).

(** One-bit fields of type [bool]. *)
Definition get_flag (raw : Z) (f : bitfield) : bool := to_bool (get_field raw f).
Definition set_flag (raw : Z) (f : bitfield) (b : bool) : Z := set_field raw f (Z.b2z b).

(** The byte array view of a group. *)
Definition raw_byte (raw : Z) (i : Z) : Z := Z.land (Z.shiftr raw (8 * i)) 0xFF.

Definition raw_bytes (len : nat) (raw : Z) : list Z :=
  map (fun i => raw_byte raw (Z.of_nat i)) (seq 0 len).

Fixpoint raw_of_bytes (bs : list Z) : Z :=
  match bs with
  | [] => 0
  | b :: bs' => Z.lor (Z.land b 0xFF) (Z.shiftl (raw_of_bytes bs') 8)
  end.

(** Modelled from the spec: the declaration of the register image (ds3231.h)
    is not among the sources.  The groups have the sizes the spec gives
    (time 7 bytes, alarm 1 4 bytes, alarm 2 3 bytes, control and status 1 byte
    each); the fields are those the source names, in the order the spec lists
    them from the least significant bit, at the DS3231's register positions;
    units digits are 4 bits wide and tens digits as wide as the spec's digit
    ranges need; match bits and flags are [bool] bit-fields. *)
Module RTC.
Definition size : nat := 7.
Definition second := bf 0 0 4.
Definition second_10 := bf 0 4 3.
Definition minute := bf 1 0 4.
Definition minute_10 := bf 1 4 3.
Definition hour := bf 2 0 4.
Definition hour_10 := bf 2 4 2.
Definition weekday := bf 3 0 3.
Definition day := bf 4 0 4.
Definition day_10 := bf 4 4 2.
Definition month := bf 5 0 4.
Definition month_10 := bf 5 4 1.
Definition year := bf 6 0 4.
Definition year_10 := bf 6 4 4.
End RTC.

Module Alrm1.
Definition size : nat := 4.
Definition second := bf 0 0 4.
Definition second_10 := bf 0 4 3.
Definition m1 := bf 0 7 1.
Definition minute := bf 1 0 4.
Definition minute_10 := bf 1 4 3.
Definition m2 := bf 1 7 1.
Definition hour := bf 2 0 4.
Definition hour_10 := bf 2 4 2.
Definition m3 := bf 2 7 1.
Definition day := bf 3 0 4.
Definition day_10 := bf 3 4 2.
Definition day_mode := bf 3 6 1.
Definition m4 := bf 3 7 1.
End Alrm1.

Module Alrm2.
Definition size : nat := 3.
Definition minute := bf 0 0 4.
Definition minute_10 := bf 0 4 3.
Definition m2 := bf 0 7 1.
Definition hour := bf 1 0 4.
Definition hour_10 := bf 1 4 2.
Definition m3 := bf 1 7 1.
Definition day := bf 2 0 4.
Definition day_10 := bf 2 4 2.
Definition day_mode := bf 2 6 1.
Definition m4 := bf 2 7 1.
End Alrm2.

Module Ctrl.
Definition size : nat := 1.
Definition alrm_1_int := bf 0 0 1.
Definition alrm_2_int := bf 0 1 1.
Definition int_ctrl := bf 0 2 1.
Definition rs := bf 0 3 2.
Definition conv_tmp := bf 0 5 1.
Definition bat_sqw := bf 0 6 1.
Definition osc_dis := bf 0 7 1.
End Ctrl.

Module Stat.
Definition size : nat := 1.
Definition alrm_1_act := bf 0 0 1.
Definition alrm_2_act := bf 0 1 1.
Definition busy := bf 0 2 1.
Definition en32khz := bf 0 3 1.
Definition osc_stop := bf 0 7 1.
End Stat.

(** The mirrored register image [ds3231_]: one raw group per register group. *)
Record DS3231Reg : Type := mkReg {
  rtc : Z;
  alrm_1 : Z;
  alrm_2 : Z;
  ctrl : Z;
  stat : Z
}.

Definition with_rtc (v : Z) (r : DS3231Reg) : DS3231Reg :=
  mkReg v (alrm_1 r) (alrm_2 r) (ctrl r) (stat r).
Definition with_alrm_1 (v : Z) (r : DS3231Reg) : DS3231Reg :=
  mkReg (rtc r) v (alrm_2 r) (ctrl r) (stat r).
Definition with_alrm_2 (v : Z) (r : DS3231Reg) : DS3231Reg :=
  mkReg (rtc r) (alrm_1 r) v (ctrl r) (stat r).
Definition with_ctrl (v : Z) (r : DS3231Reg) : DS3231Reg :=
  mkReg (rtc r) (alrm_1 r) (alrm_2 r) v (stat r).
Definition with_stat (v : Z) (r : DS3231Reg) : DS3231Reg :=
  mkReg (rtc r) (alrm_1 r) (alrm_2 r) (ctrl r) v.

(** ** Calendar time of the host (time::ESPTime) *)

Record ESPTime : Type := mkTime {
  second : Z;
  minute : Z;
  hour : Z;
  day_of_week : Z;
  day_of_month : Z;
  day_of_year : Z;
  month : Z;
  year : Z;
  timestamp : Z
}.

Definition with_timestamp (ts : Z) (t : ESPTime) : ESPTime :=
  mkTime (second t) (minute t) (hour t) (day_of_week t) (day_of_month t)
         (day_of_year t) (month t) (year t) ts.

(** ** The two-wire bus

    The chip is a file of byte registers.  Each transaction is either
    acknowledged or refused; [script] lists the outcome of the forthcoming
    transactions, and a bus with an empty script acknowledges.  A refused read
    leaves the caller's buffer as it was, a refused write leaves the chip as it
    was. *)

Record I2CBus : Type := mkBus {
  regs : Z -> Z;
  script : list bool
}.

Definition next_ok (b : I2CBus) : bool :=
  match script b with
  | [] => true
  | ok :: _ => ok
  end.

Definition advance (b : I2CBus) : I2CBus := mkBus (regs b) (tl (script b)).

Definition chip_bytes (r : Z -> Z) (address : Z) (len : nat) : list Z :=
  map (fun i => r (address + Z.of_nat i)) (seq 0 len).

Definition chip_store (r : Z -> Z) (address : Z) (data : list Z) : Z -> Z :=
  fun a =>
    if (address <=? a) && (a <? address + Z.of_nat (List.length data))
    then nth (Z.to_nat (a - address)) data 0
    else r a.

(** ** Effects *)

Inductive Level : Type := LOGCONFIG | LOGD | LOGW | LOGE.

Inductive Event : Type :=
| BusRead (address : Z) (len : nat) (ok : bool)
| BusWrite (address : Z) (data : list Z) (ok : bool)
| Log (lvl : Level) (msg : string)
| SynchronizeEpoch (epoch : Z).

(** ** The component *)

Record DS3231Component : Type := mkComponent {
  ds3231_ : DS3231Reg;
  bus : I2CBus;
  failed : bool;
  utcnow : ESPTime
}.

Definition with_image (f : DS3231Reg -> DS3231Reg) (c : DS3231Component) : DS3231Component :=
  mkComponent (f (ds3231_ c)) (bus c) (failed c) (utcnow c).
Definition with_bus (b : I2CBus) (c : DS3231Component) : DS3231Component :=
  mkComponent (ds3231_ c) b (failed c) (utcnow c).

(** State and effect monad of the driver's methods. *)
Definition M (A : Type) : Type := DS3231Component -> A * DS3231Component * list Event.

Definition ret {A : Type} (a : A) : M A := fun c => (a, c, []).

Definition bind {A B : Type} (m : M A) (k : A -> M B) : M B :=
  fun c =>
    let '(a, c1, e1) := m c in
    let '(b, c2, e2) := k a c1 in
    (b, c2, e1 ++ e2).

Notation "x <- m ;; k" := (bind m (fun x => k))
  (at level 61, m at next level, right associativity).
Notation "m ;; k" := (bind m (fun _ => k))
  (at level 61, right associativity).

Definition emit (e : Event) : M unit := fun c => (tt, c, [e]).
Definition modify (f : DS3231Reg -> DS3231Reg) : M unit := fun c => (tt, with_image f c, []).
Definition image : M DS3231Reg := fun c => (ds3231_ c, c, []).

Definition result {A : Type} (r : A * DS3231Component * list Event) : A := fst (fst r).
Definition state {A : Type} (r : A * DS3231Component * list Event) : DS3231Component := snd (fst r).
Definition events {A : Type} (r : A * DS3231Component * list Event) : list Event := snd r.

Definition mark_failed : M unit :=
  fun c => (tt, mkComponent (ds3231_ c) (bus c) true (utcnow c), []).

(** [read_bytes(address, buffer, len)]: one bus transaction; the bytes read,
    or [None] when the bus refuses. *)
Definition read_bytes (address : Z) (len : nat) : M (option (list Z)) :=
  fun c =>
    let b := bus c in
    if next_ok b
    then (Some (chip_bytes (regs b) address len), with_bus (advance b) c,
          [BusRead address len true])
    else (None, with_bus (advance b) c, [BusRead address len false]).

(** [write_bytes(address, buffer, len)]: one bus transaction. *)
Definition write_bytes (address : Z) (data : list Z) : M bool :=
  fun c =>
    let b := bus c in
    if next_ok b
    then (true, with_bus (mkBus (chip_store (regs b) address data) (tl (script b))) c,
          [BusWrite address data true])
    else (false, with_bus (advance b) c, [BusWrite address data false]).

(** ** Register access procedures (ds3231.cpp, lines 182-328)

    The ten procedures share one shape: a single bus transaction at the
    group's address over the group's raw bytes, an error line and [false] when
    the bus refuses, a debug line and [true] otherwise. *)

Definition read_group (address : Z) (len : nat) (store : Z -> DS3231Reg -> DS3231Reg)
    (fmt : string) : M bool :=
  r <- read_bytes address len ;;
  match r with
  | None => emit (Log LOGE "Can't read I2C data.") ;; ret false
  | Some bs => modify (store (raw_of_bytes bs)) ;; emit (Log LOGD fmt) ;; ret true
  end.

Definition write_group (address : Z) (len : nat) (raw : DS3231Reg -> Z)
    (fmt : string) : M bool :=
  r <- image ;;
  ok <- write_bytes address (raw_bytes len (raw r)) ;;
  if ok then emit (Log LOGD fmt) ;; ret true
  else emit (Log LOGE "Can't write I2C data.") ;; ret false.

Definition read_rtc_ : M bool :=
  read_group DS3231_RTC_ADDRESS RTC.size with_rtc "Read  %0u%0u:%0u%0u:%0u%0u 20%0u%0u-%0u%0u-%0u%0u".
Definition write_rtc_ : M bool :=
  write_group DS3231_RTC_ADDRESS RTC.size rtc "Write %0u%0u:%0u%0u:%0u%0u 20%0u%0u-%0u%0u-%0u%0u".

Definition read_alrm_1_ : M bool :=
  read_group DS3231_ALARM_1_ADDRESS Alrm1.size with_alrm_1
    "Read  Alarm1 - %0u%0u:%0u%0u:%0u%0u %s:%0u%0u M1:%0u M2:%0u M3:%0u M4:%0u".
Definition write_alrm_1_ : M bool :=
  write_group DS3231_ALARM_1_ADDRESS Alrm1.size alrm_1
    "Write Alarm1 - %0u%0u:%0u%0u:%0u%0u %s:%0u%0u M1:%0u M2:%0u M3:%0u M4:%0u".

(** Lines 243 and 257: both procedures of alarm 2 pass
    [DS3231_ALARM_1_ADDRESS]. *)
Definition read_alrm_2_ : M bool :=
  read_group DS3231_ALARM_1_ADDRESS Alrm2.size with_alrm_2
    "Read  Alarm2 - %0u%0u:%0u%0u %s:%0u%0u M2:%0u M3:%0u M4:%0u".
Definition write_alrm_2_ : M bool :=
  write_group DS3231_ALARM_1_ADDRESS Alrm2.size alrm_2
    "Write Alarm2 - %0u%0u:%0u%0u %s:%0u%0u M2:%0u M3:%0u M4:%0u".

Definition read_ctrl_ : M bool :=
  read_group DS3231_CONTROL_ADDRESS Ctrl.size with_ctrl
    "Read  A1I:%s A2I:%s INT_SQW:%s RS:%0u CT:%s BSQW:%s OSC:%s".
Definition write_ctrl_ : M bool :=
  write_group DS3231_CONTROL_ADDRESS Ctrl.size ctrl
    "Write A1I:%s A2I:%s INT_SQW:%s RS:%0u CT:%s BSQW:%s OSC:%s".

Definition read_stat_ : M bool :=
  read_group DS3231_STATUS_ADDRESS Stat.size with_stat "Read  A1:%s A2:%s BSY:%s 32K:%s OSC:%s".
Definition write_stat_ : M bool :=
  write_group DS3231_STATUS_ADDRESS Stat.size stat "Write A1:%s A2:%s BSY:%s 32K:%s OSC:%s".

(** ** setup (lines 28-45) *)

Definition setup : M unit :=
  emit (Log LOGCONFIG "Setting up DS3231...") ;;
  ok <- read_rtc_ ;;
  (if negb ok then mark_failed else ret tt) ;;
  ok <- read_alrm_1_ ;;
  (if negb ok then mark_failed else ret tt) ;;
  ok <- read_alrm_2_ ;;
  (if negb ok then mark_failed else ret tt) ;;
  ok <- read_ctrl_ ;;
  (if negb ok then mark_failed else ret tt) ;;
  ok <- read_stat_ ;;
  (if negb ok then mark_failed else ret tt).

(** ** BCD coding of the time registers *)

(** The initializer of [rtc_time] in [read_time] (lines 71-78). *)
Definition decode_rtc (raw : Z) : ESPTime :=
  {| second := uint8_t (get_field raw RTC.second + 10 * get_field raw RTC.second_10);
     minute := uint8_t (get_field raw RTC.minute + 10 * get_field raw RTC.minute_10);
     hour := uint8_t (get_field raw RTC.hour + 10 * get_field raw RTC.hour_10);
     day_of_week := uint8_t (get_field raw RTC.weekday);
     day_of_month := uint8_t (get_field raw RTC.day + 10 * get_field raw RTC.day_10);
     day_of_year := 1;
     month := uint8_t (get_field raw RTC.month + 10 * get_field raw RTC.month_10);
     year := uint16_t (get_field raw RTC.year + 10 * get_field raw RTC.year_10 + 2000);
     timestamp := 0 |}.

(** The assignments of [write_time] (lines 98-110), in their order. *)
Definition encode_rtc (now : ESPTime) (raw : Z) : Z :=
  let raw := set_field raw RTC.second (Z.rem (second now) 10) in
  let raw := set_field raw RTC.second_10 (Z.quot (second now) 10) in
  let raw := set_field raw RTC.minute (Z.rem (minute now) 10) in
  let raw := set_field raw RTC.minute_10 (Z.quot (minute now) 10) in
  let raw := set_field raw RTC.hour (Z.rem (hour now) 10) in
  let raw := set_field raw RTC.hour_10 (Z.quot (hour now) 10) in
  let raw := set_field raw RTC.weekday (day_of_week now) in
  let raw := set_field raw RTC.day (Z.rem (day_of_month now) 10) in
  let raw := set_field raw RTC.day_10 (Z.quot (day_of_month now) 10) in
  let raw := set_field raw RTC.month (Z.rem (month now) 10) in
  let raw := set_field raw RTC.month_10 (Z.quot (month now) 10) in
  let raw := set_field raw RTC.year (Z.rem (year now - 2000) 10) in
  set_field raw RTC.year_10 (Z.rem (Z.quot (year now - 2000) 10) 10).

(** ** Time synchronization (lines 60-112)

    [ESPTime::is_valid] and [ESPTime::recalc_timestamp_utc] belong to the host
    clock, outside this driver: they are parameters of the two operations. *)

Section TimeSync.

Variable is_valid : ESPTime -> bool.
Variable recalc_timestamp_utc : ESPTime -> Z.

Definition read_time : M unit :=
  ok <- read_stat_ ;;
  if negb ok then ret tt
  else
    r <- image ;;
    if get_flag (stat r) Stat.osc_stop
    then emit (Log LOGW "RTC halted, not syncing to system clock.")
    else
      ok <- read_rtc_ ;;
      if negb ok then ret tt
      else
        r <- image ;;
        let rtc_time := decode_rtc (rtc r) in
        let rtc_time := with_timestamp (recalc_timestamp_utc rtc_time) rtc_time in
        if negb (is_valid rtc_time)
        then emit (Log LOGE "Invalid RTC time, not syncing to system clock.")
        else emit (SynchronizeEpoch (timestamp rtc_time)).

Definition update : M unit := read_time.

Definition write_time : M unit :=
  now <- (fun c => (utcnow c, c, [])) ;;
  if negb (is_valid now)
  then emit (Log LOGE "Invalid system time, not syncing to RTC.")
  else
    read_stat_ ;;
    r <- image ;;
    (if get_flag (stat r) Stat.osc_stop
     then modify (fun r => with_stat (set_flag (stat r) Stat.osc_stop false) r) ;;
          write_stat_ ;; ret tt
     else ret tt) ;;
    modify (fun r => with_rtc (encode_rtc now (rtc r)) r) ;;
    write_rtc_ ;; ret tt.

End TimeSync.

(** ** Alarm configuration (lines 114-157) *)

Definition encode_alrm_1 (alarm_type second minute hour day : Z) (raw : Z) : Z :=
  let raw := set_field raw Alrm1.second (Z.rem second 10) in
  let raw := set_field raw Alrm1.second_10 (Z.quot second 10) in
  let raw := set_flag raw Alrm1.m1 (to_bool (Z.land alarm_type DS3231_ALARM_TYPE_M1)) in
  let raw := set_field raw Alrm1.minute (Z.rem minute 10) in
  let raw := set_field raw Alrm1.minute_10 (Z.quot minute 10) in
  let raw := set_flag raw Alrm1.m2 (to_bool (Z.land alarm_type DS3231_ALARM_TYPE_M2)) in
  let raw := set_field raw Alrm1.hour (Z.rem hour 10) in
  let raw := set_field raw Alrm1.hour_10 (Z.quot hour 10) in
  let raw := set_flag raw Alrm1.m3 (to_bool (Z.land alarm_type DS3231_ALARM_TYPE_M3)) in
  let raw := set_field raw Alrm1.day (Z.rem day 10) in
  let raw := set_field raw Alrm1.day_10 (Z.quot day 10) in
  let raw := set_flag raw Alrm1.day_mode (to_bool (Z.land alarm_type DS3231_ALARM_TYPE_DAY_MODE)) in
  set_flag raw Alrm1.m4 (to_bool (Z.land alarm_type DS3231_ALARM_TYPE_M4)).

Definition encode_alrm_2 (alarm_type minute hour day : Z) (raw : Z) : Z :=
  let raw := set_field raw Alrm2.minute (Z.rem minute 10) in
  let raw := set_field raw Alrm2.minute_10 (Z.quot minute 10) in
  let raw := set_flag raw Alrm2.m2 (to_bool (Z.land alarm_type DS3231_ALARM_TYPE_M2)) in
  let raw := set_field raw Alrm2.hour (Z.rem hour 10) in
  let raw := set_field raw Alrm2.hour_10 (Z.quot hour 10) in
  let raw := set_flag raw Alrm2.m3 (to_bool (Z.land alarm_type DS3231_ALARM_TYPE_M3)) in
  let raw := set_field raw Alrm2.day (Z.rem day 10) in
  let raw := set_field raw Alrm2.day_10 (Z.quot day 10) in
  let raw := set_flag raw Alrm2.day_mode (to_bool (Z.land alarm_type DS3231_ALARM_TYPE_DAY_MODE)) in
  set_flag raw Alrm2.m4 (to_bool (Z.land alarm_type DS3231_ALARM_TYPE_M4)).

(** The interrupt-enable update that closes each branch of [set_alarm]. *)
Definition set_alarm_int (alarm_type : Z) (alrm_int : bitfield) : M unit :=
  r <- image ;;
  if negb (Bool.eqb (get_flag (ctrl r) alrm_int)
                    (to_bool (Z.land alarm_type DS3231_ALARM_TYPE_INTERUPT)))
  then
    modify (fun r => with_ctrl
      (set_flag (ctrl r) alrm_int (to_bool (Z.land alarm_type DS3231_ALARM_TYPE_INTERUPT))) r) ;;
    write_ctrl_ ;; ret tt
  else ret tt.

Definition set_alarm (alarm_type second minute hour day : Z) : M unit :=
  read_ctrl_ ;;
  if negb (to_bool (Z.land alarm_type DS3231_ALARM_TYPE_ALARM_NUMBER))
  then
    read_alrm_1_ ;;
    modify (fun r => with_alrm_1 (encode_alrm_1 alarm_type second minute hour day (alrm_1 r)) r) ;;
    write_alrm_1_ ;;
    set_alarm_int alarm_type Ctrl.alrm_1_int
  else
    read_alrm_2_ ;;
    modify (fun r => with_alrm_2 (encode_alrm_2 alarm_type minute hour day (alrm_2 r)) r) ;;
    write_alrm_2_ ;;
    set_alarm_int alarm_type Ctrl.alrm_2_int.

(** ** Square-wave / interrupt mode (lines 159-170)

    Modelled from the spec: the enumeration [DS3231SquareWaveMode] (ds3231.h)
    is not among the sources.  A mode is the alarm interrupt or a square wave
    at one of four rates; a rate's value is the value of the 2-bit rate field
    that selects it.  The value of [ALARM_INTERUPT] is a parameter. *)

Inductive DS3231SquareWaveMode : Type :=
| SQUARE_WAVE_1HZ
| SQUARE_WAVE_1KHZ
| SQUARE_WAVE_4KHZ
| SQUARE_WAVE_8KHZ
| ALARM_INTERUPT.

Definition is_alarm_interupt (mode : DS3231SquareWaveMode) : bool :=
  match mode with
  | ALARM_INTERUPT => true
  | _ => false
  end.

Section SquareWave.

Variable ALARM_INTERUPT_value : Z.

Definition mode_value (mode : DS3231SquareWaveMode) : Z :=
  match mode with
  | SQUARE_WAVE_1HZ => 0
  | SQUARE_WAVE_1KHZ => 1
  | SQUARE_WAVE_4KHZ => 2
  | SQUARE_WAVE_8KHZ => 3
  | ALARM_INTERUPT => ALARM_INTERUPT_value
  end.

Definition set_sqw_mode (mode : DS3231SquareWaveMode) : M unit :=
  read_ctrl_ ;;
  r <- image ;;
  if is_alarm_interupt mode && negb (get_flag (ctrl r) Ctrl.int_ctrl)
  then
    modify (fun r => with_ctrl (set_flag (ctrl r) Ctrl.int_ctrl true) r) ;;
    write_ctrl_ ;; ret tt
  else if get_flag (ctrl r) Ctrl.int_ctrl
          || negb (get_field (ctrl r) Ctrl.rs =? mode_value mode)
  then
    modify (fun r => with_ctrl (set_flag (ctrl r) Ctrl.int_ctrl false) r) ;;
    modify (fun r => with_ctrl (set_field (ctrl r) Ctrl.rs (mode_value mode)) r) ;;
    write_ctrl_ ;; ret tt
  else ret tt.

End SquareWave.

(** ** Alarm acknowledgement (lines 172-180)

    Modelled from the spec: the enumeration [DS3231AlarmNumber] (ds3231.h) is
    not among the sources; it names the two alarm slots. *)

Inductive DS3231AlarmNumber : Type := ALARM_1 | ALARM_2.

Definition is_alarm_1 (n : DS3231AlarmNumber) : bool :=
  match n with ALARM_1 => true | ALARM_2 => false end.
Definition is_alarm_2 (n : DS3231AlarmNumber) : bool :=
  match n with ALARM_1 => false | ALARM_2 => true end.

Definition reset_alarm (alarm_number : DS3231AlarmNumber) : M unit :=
  read_stat_ ;;
  r <- image ;;
  (if is_alarm_1 alarm_number && get_flag (stat r) Stat.alrm_1_act
   then modify (fun r => with_stat (set_flag (stat r) Stat.alrm_1_act false) r)
   else if is_alarm_2 alarm_number && get_flag (stat r) Stat.alrm_2_act
   then modify (fun r => with_stat (set_flag (stat r) Stat.alrm_2_act false) r)
   else ret tt) ;;
  write_stat_ ;; ret tt.

(** ** Reading the list of effects *)

Definition bus_writes (evs : list Event) : list (Z * list Z) :=
  flat_map (fun e => match e with BusWrite a d _ => [(a, d)] | _ => [] end) evs.

Definition bus_reads (evs : list Event) : list (Z * nat) :=
  flat_map (fun e => match e with BusRead a n _ => [(a, n)] | _ => [] end) evs.

Definition failed_reads (evs : list Event) : list (Z * nat) :=
  flat_map (fun e => match e with BusRead a n false => [(a, n)] | _ => [] end) evs.

Definition synchronized (evs : list Event) : list Z :=
  flat_map (fun e => match e with SynchronizeEpoch t => [t] | _ => [] end) evs.

Definition warnings (evs : list Event) : list string :=
  flat_map (fun e => match e with Log LOGW m => [m] | _ => [] end) evs.

(** Events that follow the first refused bus read. *)
Fixpoint after_failed_read (evs : list Event) : list Event :=
  match evs with
  | [] => []
  | BusRead _ _ false :: rest => rest
  | _ :: rest => after_failed_read rest
  end.

(** ** Reading alarm 1 back

    The driver never decodes an alarm; [decode_alrm_1] reads the alarm 1 group
    by the rule [read_time] applies to the time group (units + 10 * tens). *)

Record Alarm1Fields : Type := mkAlarm1 {
  a1_second : Z;
  a1_minute : Z;
  a1_hour : Z;
  a1_day : Z;
  a1_m1 : bool;
  a1_m2 : bool;
  a1_m3 : bool;
  a1_m4 : bool;
  a1_day_mode : bool
}.

Definition decode_alrm_1 (raw : Z) : Alarm1Fields :=
  {| a1_second := uint8_t (get_field raw Alrm1.second + 10 * get_field raw Alrm1.second_10);
     a1_minute := uint8_t (get_field raw Alrm1.minute + 10 * get_field raw Alrm1.minute_10);
     a1_hour := uint8_t (get_field raw Alrm1.hour + 10 * get_field raw Alrm1.hour_10);
     a1_day := uint8_t (get_field raw Alrm1.day + 10 * get_field raw Alrm1.day_10);
     a1_m1 := get_flag raw Alrm1.m1;
     a1_m2 := get_flag raw Alrm1.m2;
     a1_m3 := get_flag raw Alrm1.m3;
     a1_m4 := get_flag raw Alrm1.m4;
     a1_day_mode := get_flag raw Alrm1.day_mode |}.

(** ** Side conditions on bit-fields *)

Definition wf_field (f : bitfield) : bool :=
  (0 <=? bf_byte f) && (0 <=? bf_bit f) && (0 <=? bf_width f).

Definition disjoint (f g : bitfield) : bool :=
  (bf_pos f + bf_width f <=? bf_pos g) || (bf_pos g + bf_width g <=? bf_pos f).

Definition fits (f : bitfield) (len : nat) : bool :=
  bf_pos f + bf_width f <=? 8 * Z.of_nat len.

(** ** Concrete inputs

    A chip whose registers all hold [fill], a component in front of it, and an
    instance of the host clock's two functions: the field ranges of the spec
    and a day count that takes every month as 31 days. *)

Definition chip_of (fill : Z) : Z -> Z := fun _ => fill.

Definition midnight : ESPTime := mkTime 0 0 0 1 1 1 1 2024 0.

Definition component_on (fill : Z) (outcomes : list bool) (now : ESPTime) : DS3231Component :=
  mkComponent (mkReg 0 0 0 0 0) (mkBus (chip_of fill) outcomes) false now.

Definition fields_in_range (t : ESPTime) : bool :=
  (0 <=? second t) && (second t <=? 59) && (0 <=? minute t) && (minute t <=? 59)
  && (0 <=? hour t) && (hour t <=? 23)
  && (1 <=? day_of_month t) && (day_of_month t <=? 31)
  && (1 <=? month t) && (month t <=? 12).

Definition flat_timestamp (t : ESPTime) : Z :=
  ((((year t - 1970) * 372 + (month t - 1) * 31 + (day_of_month t - 1)) * 24
    + hour t) * 60 + minute t) * 60 + second t.

(** ** Vocabulary of the statements *)

(** The active flag [reset_alarm] clears for an alarm number. *)
Definition alrm_act (alarm_number : DS3231AlarmNumber) : bitfield :=
  match alarm_number with
  | ALARM_1 => Stat.alrm_1_act
  | ALARM_2 => Stat.alrm_2_act
  end.

(** The branch [set_alarm] takes, the interrupt enable it compares and the
    alarm group it hands to the bus. *)
Definition targets_alarm_1 (alarm_type : Z) : bool :=
  negb (to_bool (Z.land alarm_type DS3231_ALARM_TYPE_ALARM_NUMBER)).

Definition alrm_int (alarm_type : Z) : bitfield :=
  if targets_alarm_1 alarm_type then Ctrl.alrm_1_int else Ctrl.alrm_2_int.

Definition alarm_group (alarm_type : Z) (r : DS3231Reg) : list Z :=
  if targets_alarm_1 alarm_type
  then raw_bytes Alrm1.size (alrm_1 r)
  else raw_bytes Alrm2.size (alrm_2 r).

(** Alarm 1 at 08:15:30 on day 1 of the month, matching on M2, M3 and M4. *)
Definition alarm_1_example : Alarm1Fields :=
  {| a1_second := 30; a1_minute := 15; a1_hour := 8; a1_day := 1;
     a1_m1 := false; a1_m2 := true; a1_m3 := true; a1_m4 := true;
     a1_day_mode := false |}.

(** An operation that performs no bus write once one of its bus reads has
    been refused. *)
Definition abandons_after_failed_read (op : M unit) : Prop :=
  forall c, bus_writes (after_failed_read (events (op c))) = [].

(** ** Vocabulary of the further statements *)

(** Whether some bus read of a list of effects was refused. *)
Definition any_failed_read (evs : list Event) : bool :=
  existsb (fun e => match e with BusRead _ _ false => true | _ => false end) evs.

(** The host time as [read_time] gets it back from the registers: the day of
    the year and the timestamp are not stored. *)
Definition as_stored (now : ESPTime) : ESPTime :=
  mkTime (second now) (minute now) (hour now) (day_of_week now) (day_of_month now)
         1 (month now) (year now) 0.

(** The ranges of the calendar fields the time registers can hold. *)
Definition storable (now : ESPTime) : Prop :=
  0 <= second now <= 59 /\ 0 <= minute now <= 59 /\ 0 <= hour now <= 23 /\
  0 <= day_of_week now <= 7 /\ 1 <= day_of_month now <= 31 /\
  1 <= month now <= 12 /\ 2000 <= year now <= 2099.

(** Whether bit [i] of a group lies in field [f]. *)
Definition in_field (f : bitfield) (i : Z) : bool :=
  (bf_pos f <=? i) && (i <? bf_pos f + bf_width f).

(** The fields [write_time] stores, and the bits of the time group none of
    them covers. *)
Definition rtc_fields : list bitfield :=
  [RTC.second; RTC.second_10; RTC.minute; RTC.minute_10; RTC.hour; RTC.hour_10;
   RTC.weekday; RTC.day; RTC.day_10; RTC.month; RTC.month_10; RTC.year; RTC.year_10].

Definition rtc_unused_bit (i : Z) : bool :=
  (0 <=? i) && forallb (fun f => negb (in_field f i)) rtc_fields.

(** Reading alarm 2 back, by the rule of [decode_alrm_1]. *)
Record Alarm2Fields : Type := mkAlarm2 {
  a2_minute : Z;
  a2_hour : Z;
  a2_day : Z;
  a2_m2 : bool;
  a2_m3 : bool;
  a2_m4 : bool;
  a2_day_mode : bool
}.

Definition decode_alrm_2 (raw : Z) : Alarm2Fields :=
  {| a2_minute := uint8_t (get_field raw Alrm2.minute + 10 * get_field raw Alrm2.minute_10);
     a2_hour := uint8_t (get_field raw Alrm2.hour + 10 * get_field raw Alrm2.hour_10);
     a2_day := uint8_t (get_field raw Alrm2.day + 10 * get_field raw Alrm2.day_10);
     a2_m2 := get_flag raw Alrm2.m2;
     a2_m3 := get_flag raw Alrm2.m3;
     a2_m4 := get_flag raw Alrm2.m4;
     a2_day_mode := get_flag raw Alrm2.day_mode |}.

(** What an alarm type and a time of day ask of each alarm. *)
Definition alarm_1_fields (alarm_type second minute hour day : Z) : Alarm1Fields :=
  {| a1_second := second; a1_minute := minute; a1_hour := hour; a1_day := day;
     a1_m1 := to_bool (Z.land alarm_type DS3231_ALARM_TYPE_M1);
     a1_m2 := to_bool (Z.land alarm_type DS3231_ALARM_TYPE_M2);
     a1_m3 := to_bool (Z.land alarm_type DS3231_ALARM_TYPE_M3);
     a1_m4 := to_bool (Z.land alarm_type DS3231_ALARM_TYPE_M4);
     a1_day_mode := to_bool (Z.land alarm_type DS3231_ALARM_TYPE_DAY_MODE) |}.

Definition alarm_2_fields (alarm_type minute hour day : Z) : Alarm2Fields :=
  {| a2_minute := minute; a2_hour := hour; a2_day := day;
     a2_m2 := to_bool (Z.land alarm_type DS3231_ALARM_TYPE_M2);
     a2_m3 := to_bool (Z.land alarm_type DS3231_ALARM_TYPE_M3);
     a2_m4 := to_bool (Z.land alarm_type DS3231_ALARM_TYPE_M4);
     a2_day_mode := to_bool (Z.land alarm_type DS3231_ALARM_TYPE_DAY_MODE) |}.

(** The outcome of the [k]-th forthcoming bus transaction. *)
Definition outcome (k : nat) (c : DS3231Component) : bool := nth k (script (bus c)) true.

(** * Properties *)

(** ** Bit-fields *)

Lemma wf_field_bounds f : wf_field f = true -> 0 <= bf_pos f /\ 0 <= bf_width f.
Proof.
  unfold wf_field, bf_pos. intros H.
  apply andb_prop in H. destruct H as [H Hw].
  apply andb_prop in H. destruct H as [Hb Hp].
  apply Z.leb_le in Hb, Hp, Hw. lia.
Qed.

Lemma testbit_ones_nonneg n i : 0 <= n -> 0 <= i -> Z.testbit (Z.ones n) i = (i <? n).
Proof.
  intros Hn Hi. destruct (Z.ltb_spec i n).
  - apply Z.ones_spec_low. lia.
  - apply Z.ones_spec_high. lia.
Qed.

Lemma testbit_get_field raw f i :
  wf_field f = true -> 0 <= i ->
  Z.testbit (get_field raw f) i = (i <? bf_width f) && Z.testbit raw (i + bf_pos f).
Proof.
  intros Hf Hi. apply wf_field_bounds in Hf. destruct Hf as [Hp Hw].
  unfold get_field.
  rewrite Z.land_spec, Z.shiftr_spec, testbit_ones_nonneg by lia.
  apply andb_comm.
Qed.

Lemma testbit_set_field raw f v i :
  wf_field f = true -> 0 <= i ->
  Z.testbit (set_field raw f v) i =
  if (bf_pos f <=? i) && (i <? bf_pos f + bf_width f)
  then Z.testbit v (i - bf_pos f)
  else Z.testbit raw i.
Proof.
  intros Hf Hi. apply wf_field_bounds in Hf. destruct Hf as [Hp Hw].
  unfold set_field.
  rewrite Z.lor_spec, Z.ldiff_spec, !Z.shiftl_spec, Z.land_spec by lia.
  destruct (Z.leb_spec (bf_pos f) i) as [Hle | Hlt]; simpl.
  - rewrite !testbit_ones_nonneg by lia.
    destruct (Z.ltb_spec i (bf_pos f + bf_width f)) as [Hin | Hout].
    + replace (i - bf_pos f <? bf_width f) with true by (symmetry; apply Z.ltb_lt; lia).
      simpl. rewrite andb_false_r, andb_true_r. reflexivity.
    + replace (i - bf_pos f <? bf_width f) with false by (symmetry; apply Z.ltb_ge; lia).
      simpl. rewrite andb_true_r, andb_false_r, orb_false_r. reflexivity.
  - rewrite !(Z.testbit_neg_r _ (i - bf_pos f)) by lia.
    simpl. rewrite andb_true_r, orb_false_r. reflexivity.
Qed.

(** Reading a field just stored gives the value, cut to the field's width. *)
Lemma get_set_same raw f v :
  wf_field f = true ->
  get_field (set_field raw f v) f = Z.land v (Z.ones (bf_width f)).
Proof.
  intros Hf. pose proof (wf_field_bounds f Hf) as [Hp Hw].
  apply Z.bits_inj'. intros i Hi.
  rewrite testbit_get_field, testbit_set_field by (assumption || lia).
  rewrite Z.land_spec, testbit_ones_nonneg by lia.
  destruct (Z.ltb_spec i (bf_width f)) as [Hin | Hout]; simpl.
  - replace (bf_pos f <=? i + bf_pos f) with true by (symmetry; apply Z.leb_le; lia).
    replace (i + bf_pos f <? bf_pos f + bf_width f) with true by (symmetry; apply Z.ltb_lt; lia).
    simpl. rewrite andb_true_r. f_equal. lia.
  - rewrite andb_false_r. reflexivity.
Qed.

(** Storing into a field leaves the fields that do not overlap it alone. *)
Lemma get_set_other raw f g v :
  wf_field f = true -> wf_field g = true -> disjoint f g = true ->
  get_field (set_field raw f v) g = get_field raw g.
Proof.
  intros Hf Hg Hd.
  pose proof (wf_field_bounds f Hf) as [Hp Hw].
  pose proof (wf_field_bounds g Hg) as [Hp' Hw'].
  apply Z.bits_inj'. intros i Hi.
  rewrite !testbit_get_field, testbit_set_field by (assumption || lia).
  destruct (Z.ltb_spec i (bf_width g)) as [Hin | Hout]; simpl; [ | reflexivity ].
  unfold disjoint in Hd. apply orb_prop in Hd.
  replace ((bf_pos f <=? i + bf_pos g) && (i + bf_pos g <? bf_pos f + bf_width f)) with false;
    [ reflexivity | ].
  symmetry. apply andb_false_iff.
  destruct Hd as [Hd | Hd]; apply Z.leb_le in Hd.
  - right. apply Z.ltb_ge. lia.
  - left. apply Z.leb_gt. lia.
Qed.

Lemma set_field_frame raw f v i :
  wf_field f = true -> 0 <= i ->
  i < bf_pos f \/ bf_pos f + bf_width f <= i ->
  Z.testbit (set_field raw f v) i = Z.testbit raw i.
Proof.
  intros Hf Hi Hout. rewrite testbit_set_field by assumption.
  replace ((bf_pos f <=? i) && (i <? bf_pos f + bf_width f)) with false; [ reflexivity | ].
  symmetry. apply andb_false_iff.
  destruct Hout; [ left; apply Z.leb_gt | right; apply Z.ltb_ge ]; lia.
Qed.

Lemma set_flag_frame raw f b i :
  wf_field f = true -> bf_width f = 1 -> 0 <= i -> i <> bf_pos f ->
  Z.testbit (set_flag raw f b) i = Z.testbit raw i.
Proof.
  intros Hf Hw Hi Hne. apply set_field_frame; [ assumption | assumption | lia ].
Qed.

Lemma get_flag_set_flag raw f b :
  wf_field f = true -> bf_width f = 1 -> get_flag (set_flag raw f b) f = b.
Proof.
  intros Hf Hw. unfold get_flag, set_flag. rewrite get_set_same by assumption.
  rewrite Hw. destruct b; reflexivity.
Qed.

Lemma get_flag_testbit raw f :
  wf_field f = true -> bf_width f = 1 -> get_flag raw f = Z.testbit raw (bf_pos f).
Proof.
  intros Hf Hw. unfold get_flag, to_bool.
  assert (E : get_field raw f = Z.b2z (Z.testbit raw (bf_pos f))).
  { apply Z.bits_inj'. intros i Hi.
    rewrite testbit_get_field by assumption. rewrite Hw.
    destruct (Z.eq_dec i 0) as [-> | Hne].
    - rewrite Z.b2z_bit0. reflexivity.
    - replace (i <? 1) with false by (symmetry; apply Z.ltb_ge; lia).
      simpl. destruct (Z.testbit raw (bf_pos f)); simpl.
      + symmetry. apply (Z.bits_above_log2 1 i); simpl; lia.
      + symmetry. apply Z.testbit_0_l. }
  rewrite E. destruct (Z.testbit raw (bf_pos f)); reflexivity.
Qed.

(** Clearing a flag that is clear changes nothing. *)
Lemma set_flag_clear_idem raw f :
  wf_field f = true -> bf_width f = 1 -> get_flag raw f = false -> set_flag raw f false = raw.
Proof.
  intros Hf Hw Hclr. rewrite get_flag_testbit in Hclr by assumption.
  apply Z.bits_inj'. intros i Hi. unfold set_flag.
  rewrite testbit_set_field by assumption. rewrite Hw.
  destruct ((bf_pos f <=? i) && (i <? bf_pos f + 1)) eqn:E; [ | reflexivity ].
  apply andb_prop in E. destruct E as [E1 E2].
  apply Z.leb_le in E1. apply Z.ltb_lt in E2.
  replace i with (bf_pos f) by lia. rewrite Z.sub_diag, Hclr. reflexivity.
Qed.

(** ** The byte view *)

Lemma testbit_raw_of_bytes_from raw k n i :
  0 <= i ->
  Z.testbit (raw_of_bytes (map (fun j => raw_byte raw (Z.of_nat j)) (seq k n))) i =
  (i <? 8 * Z.of_nat n) && Z.testbit raw (i + 8 * Z.of_nat k).
Proof.
  revert k i. induction n as [ | n IH]; intros k i Hi.
  - cbn [seq map raw_of_bytes]. rewrite Z.testbit_0_l. symmetry.
    replace (i <? 8 * Z.of_nat 0) with false by (symmetry; apply Z.ltb_ge; lia). reflexivity.
  - cbn [seq map raw_of_bytes].
    rewrite Z.lor_spec, Z.land_spec. unfold raw_byte.
    rewrite Z.land_spec, Z.shiftr_spec by lia.
    change 0xFF with (Z.ones 8). rewrite testbit_ones_nonneg by lia.
    destruct (Z.ltb_spec i 8) as [Hlo | Hhi].
    + rewrite Z.shiftl_spec_low by lia.
      replace (i <? 8 * Z.of_nat (S n)) with true by (symmetry; apply Z.ltb_lt; lia).
      rewrite !andb_true_r, orb_false_r, andb_true_l. reflexivity.
    + rewrite Z.shiftl_spec by lia. rewrite IH by lia.
      rewrite !andb_false_r, orb_false_l.
      replace (i - 8 + 8 * Z.of_nat (S k)) with (i + 8 * Z.of_nat k) by lia.
      f_equal. destruct (Z.ltb_spec (i - 8) (8 * Z.of_nat n));
        [ symmetry; apply Z.ltb_lt | symmetry; apply Z.ltb_ge ]; lia.
Qed.

(** The bytes of a group, put together again, are the group's low bytes. *)
Lemma testbit_raw_of_raw_bytes raw n i :
  0 <= i ->
  Z.testbit (raw_of_bytes (raw_bytes n raw)) i = (i <? 8 * Z.of_nat n) && Z.testbit raw i.
Proof.
  intros Hi. unfold raw_bytes. rewrite testbit_raw_of_bytes_from by assumption.
  rewrite Z.add_0_r. reflexivity.
Qed.

Lemma get_field_raw_of_raw_bytes raw n f :
  wf_field f = true -> fits f n = true ->
  get_field (raw_of_bytes (raw_bytes n raw)) f = get_field raw f.
Proof.
  intros Hf Hn. pose proof (wf_field_bounds f Hf) as [Hp Hw].
  apply Z.leb_le in Hn.
  apply Z.bits_inj'. intros i Hi.
  rewrite !testbit_get_field by assumption.
  rewrite testbit_raw_of_raw_bytes by lia.
  destruct (Z.ltb_spec i (bf_width f)); [ | reflexivity ].
  replace (i + bf_pos f <? 8 * Z.of_nat n) with true by (symmetry; apply Z.ltb_lt; lia).
  reflexivity.
Qed.

Lemma testbit_raw_of_byte b i :
  0 <= i < 8 -> Z.testbit (raw_of_bytes [b]) i = Z.testbit b i.
Proof.
  intros Hi. cbn [raw_of_bytes].
  rewrite Z.lor_spec, Z.land_spec, Z.shiftl_spec_low by lia.
  change 0xFF with (Z.ones 8). rewrite testbit_ones_nonneg by lia.
  replace (i <? 8) with true by (symmetry; apply Z.ltb_lt; lia).
  rewrite andb_true_r, orb_false_r. reflexivity.
Qed.

Lemma land_ones_small v n : 0 <= n -> 0 <= v < 2 ^ n -> Z.land v (Z.ones n) = v.
Proof.
  intros Hn Hv. rewrite Z.land_ones by assumption. apply Z.mod_small. assumption.
Qed.

(** ** Running the operations

    [run] unfolds the access procedures and the monad and splits on every
    branch the code takes: the outcome of each bus transaction and each test
    of the image. *)

Ltac unfold_access :=
  unfold set_alarm_int;
  unfold read_rtc_, write_rtc_, read_alrm_1_, write_alrm_1_, read_alrm_2_, write_alrm_2_,
         read_ctrl_, write_ctrl_, read_stat_, write_stat_;
  unfold read_group, write_group;
  unfold bind, read_bytes, write_bytes, emit, modify, image, ret, mark_failed.

Ltac reduce :=
  cbn -[get_field set_field get_flag set_flag raw_of_bytes raw_bytes
        chip_bytes chip_store Z.land Z.lor Z.shiftl Z.shiftr Z.rem Z.quot
        Z.testbit Z.add Z.mul Z.sub Z.eqb Bool.eqb uint8_t uint16_t
        decode_rtc encode_rtc encode_alrm_1 encode_alrm_2 decode_alrm_1].

Ltac run :=
  unfold_access;
  repeat (reduce;
          try match goal with
              | |- context [if ?b then _ else _] =>
                  lazymatch b with
                  | context [if _ then _ else _] => fail
                  | _ => destruct b eqn:?
                  end
              end).

(** Field reads through a chain of field stores. *)
Ltac fields :=
  unfold get_flag, set_flag;
  repeat match goal with
         | |- context [get_field (set_field ?r ?f ?v) ?g] =>
             first [ rewrite (get_set_same r f v) by reflexivity
                   | rewrite (get_set_other r f g v) by reflexivity ]
         end.

Ltac clash :=
  repeat match goal with
         | H : ?x = true, H' : context [?x] |- _ => rewrite H in H'
         | H : ?x = false, H' : context [?x] |- _ => rewrite H in H'
         end;
  try discriminate.

(** ** The chip behind the bus *)

Lemma length_raw_bytes n raw : List.length (raw_bytes n raw) = n.
Proof. unfold raw_bytes. rewrite length_map, length_seq. reflexivity. Qed.

(** What an acknowledged write stored is what a read of the same group returns. *)
Lemma chip_bytes_chip_store r address data :
  chip_bytes (chip_store r address data) address (List.length data) = data.
Proof.
  unfold chip_bytes.
  apply (nth_ext _ _ 0 0).
  - rewrite length_map, length_seq. reflexivity.
  - intros i Hi. rewrite length_map, length_seq in Hi.
    rewrite (nth_indep _ 0 (chip_store r address data (address + Z.of_nat 0)))
      by (rewrite length_map, length_seq; assumption).
    rewrite (map_nth (fun j => chip_store r address data (address + Z.of_nat j))).
    rewrite seq_nth by assumption. unfold chip_store.
    replace (address <=? address + Z.of_nat (0 + i)) with true
      by (symmetry; apply Z.leb_le; lia).
    replace (address + Z.of_nat (0 + i) <? address + Z.of_nat (List.length data)) with true
      by (symmetry; apply Z.ltb_lt; lia).
    cbn [andb]. f_equal. lia.
Qed.

Lemma chip_bytes_raw_bytes r address n raw :
  chip_bytes (chip_store r address (raw_bytes n raw)) address n = raw_bytes n raw.
Proof.
  pose proof (chip_bytes_chip_store r address (raw_bytes n raw)) as H.
  rewrite length_raw_bytes in H. exact H.
Qed.

(** A write leaves the registers outside its range alone. *)
Lemma chip_bytes_chip_store_other r address data address' n :
  (address' + Z.of_nat n <=? address)
  || (address + Z.of_nat (List.length data) <=? address') = true ->
  chip_bytes (chip_store r address data) address' n = chip_bytes r address' n.
Proof.
  intros Hd. unfold chip_bytes. apply map_ext_in. intros i Hi.
  apply in_seq in Hi. unfold chip_store.
  replace ((address <=? address' + Z.of_nat i)
           && (address' + Z.of_nat i <? address + Z.of_nat (List.length data))) with false;
    [ reflexivity | ].
  symmetry. apply andb_false_iff. apply orb_prop in Hd.
  destruct Hd as [Hd | Hd]; apply Z.leb_le in Hd.
  - left. apply Z.leb_gt. lia.
  - right. apply Z.ltb_ge. lia.
Qed.

Lemma stat_osc_stop_of_chip r :
  get_flag (raw_of_bytes (chip_bytes r DS3231_STATUS_ADDRESS Stat.size)) Stat.osc_stop =
  Z.testbit (r DS3231_STATUS_ADDRESS) 7.
Proof.
  rewrite get_flag_testbit by reflexivity.
  change (chip_bytes r DS3231_STATUS_ADDRESS Stat.size) with [r DS3231_STATUS_ADDRESS].
  apply testbit_raw_of_byte. cbn. lia.
Qed.

(** ** Register addresses of the alarm groups *)

(** C1 -- Alarm 1 is read and written at 0x07 over 4 bytes.  Alarm 2 is read
    and written over 3 bytes, but the code sends both transactions to 0x07 as
    well, not to 0x0B ([DS3231_ALARM_2_ADDRESS]), whatever the state of the
    component. *)
Theorem alrm_2_transactions_at_alarm_1_address (c : DS3231Component) :
  bus_reads (events (read_alrm_1_ c)) = [(0x07, 4%nat)] /\
  bus_writes (events (write_alrm_1_ c)) = [(0x07, raw_bytes 4 (alrm_1 (ds3231_ c)))] /\
  bus_reads (events (read_alrm_2_ c)) = [(0x07, 3%nat)] /\
  bus_writes (events (write_alrm_2_ c)) = [(0x07, raw_bytes 3 (alrm_2 (ds3231_ c)))] /\
  DS3231_ALARM_2_ADDRESS = 0x0B.
Proof.
  repeat split; run; reflexivity.
Qed.

(** ** Square-wave mode *)

Section SquareWaveProperties.

Variable ALARM_INTERUPT_value : Z.

(** Asked for the alarm interrupt, [set_sqw_mode] writes the control register
    on every call: it sets the interrupt select when it finds it clear, and
    falls into the second branch, which clears it, when it finds it set. *)
Lemma set_sqw_mode_alarm_interupt_writes (c : DS3231Component) :
  let read := ctrl (ds3231_ (state (read_ctrl_ c))) in
  bus_writes (events (set_sqw_mode ALARM_INTERUPT_value ALARM_INTERUPT c)) =
  [(DS3231_CONTROL_ADDRESS,
    raw_bytes 1
      (if get_flag read Ctrl.int_ctrl
       then set_field (set_flag read Ctrl.int_ctrl false) Ctrl.rs ALARM_INTERUPT_value
       else set_flag read Ctrl.int_ctrl true))].
Proof.
  unfold set_sqw_mode. run; clash; reflexivity.
Qed.

(** C2 -- Two calls in a row for the alarm interrupt write the control
    register twice, whatever the state of the component and whatever value
    the enumerator has: the second call issues a write, where the
    specification has none. *)
Theorem set_sqw_mode_alarm_interupt_twice (c : DS3231Component) :
  let first := set_sqw_mode ALARM_INTERUPT_value ALARM_INTERUPT c in
  let second := set_sqw_mode ALARM_INTERUPT_value ALARM_INTERUPT (state first) in
  exists d1 d2,
    bus_writes (events first) = [(DS3231_CONTROL_ADDRESS, d1)] /\
    bus_writes (events second) = [(DS3231_CONTROL_ADDRESS, d2)].
Proof.
  intros first second. unfold first, second.
  rewrite !set_sqw_mode_alarm_interupt_writes.
  eexists. eexists. split; reflexivity.
Qed.

(** Asked twice in a row for the same rate over a bus that never refuses,
    [set_sqw_mode] does not write the second time. *)
Lemma set_sqw_mode_rate_twice (mode : DS3231SquareWaveMode) (c : DS3231Component) :
  is_alarm_interupt mode = false -> script (bus c) = [] ->
  bus_writes (events (set_sqw_mode ALARM_INTERUPT_value mode
                        (state (set_sqw_mode ALARM_INTERUPT_value mode c)))) = [].
Proof.
  intros Hmode Hbus. destruct c as [img [r sc] f now]. cbn in Hbus. subst sc.
  unfold set_sqw_mode. rewrite Hmode. run; try reflexivity; clash; exfalso.
  all: match goal with
       | H : context [chip_store] |- _ =>
           change Ctrl.size with 1%nat in H;
           rewrite chip_bytes_raw_bytes in H;
           unfold get_flag in H;
           rewrite !get_field_raw_of_raw_bytes in H by reflexivity;
           revert H
       end.
  all: fields.
  all: destruct mode; try discriminate Hmode; cbn; discriminate.
Qed.

End SquareWaveProperties.

(** On a chip in square-wave mode behind a bus that never refuses, the first
    call selects the interrupt and the second call deselects it again. *)
Example set_sqw_mode_alarm_interupt_toggles :
  let first := set_sqw_mode 4 ALARM_INTERUPT (component_on 0 [] midnight) in
  let second := set_sqw_mode 4 ALARM_INTERUPT (state first) in
  bus_writes (events first) = [(0x0E, [0x04])] /\
  bus_writes (events second) = [(0x0E, [0x00])] /\
  regs (bus (state second)) 0x0E = 0x00.
Proof.
  vm_compute. repeat split.
Qed.

(** ** BCD coding of the time registers *)

Lemma bcd_digits v units tens :
  0 <= v -> v / 10 < 2 ^ tens -> 0 <= tens -> 4 <= units ->
  Z.land (Z.rem v 10) (Z.ones units) + 10 * Z.land (Z.quot v 10) (Z.ones tens) = v.
Proof.
  intros Hv Ht Htens Hunits.
  rewrite Z.rem_mod_nonneg, Z.quot_div_nonneg by lia.
  rewrite !land_ones_small.
  - pose proof (Z.div_mod v 10). lia.
  - assumption.
  - split; [ apply Z.div_pos; lia | assumption ].
  - lia.
  - pose proof (Z.mod_pos_bound v 10).
    assert (2 ^ 4 <= 2 ^ units) by (apply Z.pow_le_mono_r; lia).
    change (2 ^ 4) with 16 in *. lia.
Qed.

Ltac bcd_field :=
  rewrite bcd_digits;
  [ apply Z.mod_small; lia
  | lia
  | cbn; apply Z.div_lt_upper_bound; lia
  | cbn; lia
  | cbn; lia ].

(** C4 -- For a field value in its range (seconds and minutes 0-59, hours
    0-23, day of month 1-31, month 1-12, year offset 0-99), the digits
    [write_time] stores in the time registers (units = v % 10, tens = v / 10,
    each cut to its bit-field) are read back by [read_time]
    (units + 10 * tens) as the same value, whatever the registers held before
    and whatever the other fields are. *)
Theorem bcd_round_trip (now : ESPTime) (raw : Z) :
  let back := decode_rtc (encode_rtc now raw) in
  (0 <= second now <= 59 -> second back = second now) /\
  (0 <= minute now <= 59 -> minute back = minute now) /\
  (0 <= hour now <= 23 -> hour back = hour now) /\
  (1 <= day_of_month now <= 31 -> day_of_month back = day_of_month now) /\
  (1 <= month now <= 12 -> month back = month now) /\
  (0 <= year now - 2000 <= 99 -> year back = year now).
Proof.
  unfold decode_rtc, encode_rtc. cbn [second minute hour day_of_month month year].
  repeat split; intros H; fields; unfold uint8_t, uint16_t.
  1-5: bcd_field.
  rewrite (Z.rem_mod_nonneg (Z.quot _ _)), Z.rem_mod_nonneg, Z.quot_div_nonneg by
    (try apply Z.quot_pos; lia).
  assert (Hq : 0 <= (year now - 2000) / 10 <= 9).
  { split; [ apply Z.div_pos; lia | ].
    apply Z.lt_succ_r. apply Z.div_lt_upper_bound; lia. }
  rewrite (Z.mod_small ((year now - 2000) / 10)) by lia.
  rewrite !land_ones_small.
  - pose proof (Z.div_mod (year now - 2000) 10). rewrite Z.mod_small; lia.
  - cbn; lia.
  - cbn. lia.
  - cbn; lia.
  - cbn. pose proof (Z.mod_pos_bound (year now - 2000) 10). lia.
Qed.

Lemma bcd_round_trip_witness :
  let now := mkTime 59 15 23 3 31 1 12 2099 0 in
  let back := decode_rtc (encode_rtc now 0) in
  (0 <= second now <= 59 /\ second back = 59) /\
  (0 <= minute now <= 59 /\ minute back = 15) /\
  (0 <= hour now <= 23 /\ hour back = 23) /\
  (1 <= day_of_month now <= 31 /\ day_of_month back = 31) /\
  (1 <= month now <= 12 /\ month back = 12) /\
  (0 <= year now - 2000 <= 99 /\ year back = 2099).
Proof.
  intros now back.
  pose proof (bcd_round_trip now 0) as H. cbv zeta in H.
  destruct H as (H1 & H2 & H3 & H4 & H5 & H6).
  assert (R1 : 0 <= second now <= 59) by (cbn; lia).
  assert (R2 : 0 <= minute now <= 59) by (cbn; lia).
  assert (R3 : 0 <= hour now <= 23) by (cbn; lia).
  assert (R4 : 1 <= day_of_month now <= 31) by (cbn; lia).
  assert (R5 : 1 <= month now <= 12) by (cbn; lia).
  assert (R6 : 0 <= year now - 2000 <= 99) by (cbn; lia).
  exact (conj (conj R1 (H1 R1)) (conj (conj R2 (H2 R2)) (conj (conj R3 (H3 R3))
          (conj (conj R4 (H4 R4)) (conj (conj R5 (H5 R5)) (conj R6 (H6 R6))))))).
Defined.

(** ** Time synchronization *)

Section TimeSyncProperties.

Variable is_valid : ESPTime -> bool.
Variable recalc_timestamp_utc : ESPTime -> Z.

(** C5 -- When the chip's status register has the oscillator-stopped flag
    (bit 7) set, [read_time] never updates the host clock: it performs the one
    status read, no bus write and no read of the time registers, leaves the
    time image alone and, the read being acknowledged, logs the warning and
    stops. *)
Theorem read_time_oscillator_stopped (c : DS3231Component) :
  Z.testbit (regs (bus c) DS3231_STATUS_ADDRESS) 7 = true ->
  let done := read_time is_valid recalc_timestamp_utc c in
  synchronized (events done) = [] /\
  bus_writes (events done) = [] /\
  bus_reads (events done) = [(DS3231_STATUS_ADDRESS, 1%nat)] /\
  regs (bus (state done)) = regs (bus c) /\
  rtc (ds3231_ (state done)) = rtc (ds3231_ c) /\
  events done =
  (if next_ok (bus c)
   then [BusRead DS3231_STATUS_ADDRESS 1 true;
         Log LOGD "Read  A1:%s A2:%s BSY:%s 32K:%s OSC:%s";
         Log LOGW "RTC halted, not syncing to system clock."]
   else [BusRead DS3231_STATUS_ADDRESS 1 false; Log LOGE "Can't read I2C data."]).
Proof.
  intros Hstop done. unfold done, read_time. clear done.
  run; try (repeat split; reflexivity).
  all: match goal with
       | H : get_flag _ Stat.osc_stop = false |- _ =>
           rewrite stat_osc_stop_of_chip in H; rewrite Hstop in H; discriminate H
       end.
Qed.

(** C6 -- [read_time] hands a timestamp to the host clock only when the time
    decoded from the chip's time registers validates: a decoded time that
    [is_valid] rejects is never synchronized, and any epoch that is
    synchronized is the timestamp of a decoded time that [is_valid]
    accepts. *)
Theorem read_time_invalid_time (c : DS3231Component) :
  let decoded := decode_rtc (raw_of_bytes (chip_bytes (regs (bus c)) DS3231_RTC_ADDRESS 7)) in
  let rtc_time := with_timestamp (recalc_timestamp_utc decoded) decoded in
  let done := read_time is_valid recalc_timestamp_utc c in
  (is_valid rtc_time = false -> synchronized (events done) = []) /\
  (forall epoch, In epoch (synchronized (events done)) ->
     is_valid rtc_time = true /\ epoch = timestamp rtc_time).
Proof.
  intros decoded rtc_time done. unfold done, rtc_time, decoded, read_time. clear.
  split.
  - intros Hinv. run; try reflexivity.
    change RTC.size with 7%nat in *. rewrite Hinv in *. discriminate.
  - intros epoch. run; intros Hin; try contradiction.
    change RTC.size with 7%nat in *.
    destruct Hin as [<- | []]. split; [ | reflexivity ].
    match goal with
    | H : negb ?x = false |- ?x = true => destruct x; [ reflexivity | discriminate H ]
    end.
Qed.

(** C7 -- When the host clock's current time is not valid, [write_time] logs
    the error and returns: no bus read, no bus write, and the component (image
    and chip) is as before. *)
Theorem write_time_invalid_host_time (c : DS3231Component) :
  is_valid (utcnow c) = false ->
  let done := write_time is_valid c in
  bus_reads (events done) = [] /\
  bus_writes (events done) = [] /\
  events done = [Log LOGE "Invalid system time, not syncing to RTC."] /\
  state done = c.
Proof.
  intros Hinv done. unfold done, write_time, bind. clear done.
  cbn [fst snd]. rewrite Hinv. repeat split.
Qed.

(** C3 -- A refused group read marks the component failed during [setup] and
    makes [read_time] stop there, as the specification has it.  The four
    operations that write do not look at the result of their group reads,
    which the specification has them abandon on: after a refused read,
    [reset_alarm] writes the status image it had in memory (alarm flag
    cleared); [set_alarm] still writes the alarm image, re-encoded over the
    image it had when the alarm read was the refused one, and decides and
    builds its control write from the control image it had when the control
    read was; [write_time] writes status and time from the images it had;
    [set_sqw_mode] decides and builds its control write from the control image
    it had. *)
Theorem failed_read_handling :
  (forall c, failed_reads (events (setup c)) <> [] -> failed (state (setup c)) = true) /\
  (forall c, let done := read_time is_valid recalc_timestamp_utc c in
     failed_reads (events done) <> [] ->
     after_failed_read (events done) = [Log LOGE "Can't read I2C data."] /\
     synchronized (events done) = []) /\
  (forall alarm_number c, next_ok (bus c) = false ->
     let stale := stat (ds3231_ c) in
     bus_writes (after_failed_read (events (reset_alarm alarm_number c))) =
     [(DS3231_STATUS_ADDRESS,
       raw_bytes 1 (if get_flag stale (alrm_act alarm_number)
                    then set_flag stale (alrm_act alarm_number) false
                    else stale))]) /\
  (forall alarm_type second minute hour day c,
     let done := set_alarm alarm_type second minute hour day c in
     failed_reads (events done) <> [] ->
     exists address,
       In (address, alarm_group alarm_type (ds3231_ (state done)))
          (bus_writes (after_failed_read (events done)))) /\
  (forall alarm_type second minute hour day c,
     let done := set_alarm alarm_type second minute hour day c in
     outcome 1 c = false ->
     if targets_alarm_1 alarm_type
     then alrm_1 (ds3231_ (state done)) =
          encode_alrm_1 alarm_type second minute hour day (alrm_1 (ds3231_ c))
     else alrm_2 (ds3231_ (state done)) =
          encode_alrm_2 alarm_type minute hour day (alrm_2 (ds3231_ c))) /\
  (forall alarm_type second minute hour day c,
     let done := set_alarm alarm_type second minute hour day c in
     let stale := ctrl (ds3231_ c) in
     let enable := to_bool (Z.land alarm_type DS3231_ALARM_TYPE_INTERUPT) in
     next_ok (bus c) = false ->
     exists address,
       bus_writes (after_failed_read (events done)) =
       (address, alarm_group alarm_type (ds3231_ (state done)))
       :: (if Bool.eqb (get_flag stale (alrm_int alarm_type)) enable
           then []
           else [(DS3231_CONTROL_ADDRESS,
                  raw_bytes 1 (set_flag stale (alrm_int alarm_type) enable))])) /\
  (forall c, is_valid (utcnow c) = true -> next_ok (bus c) = false ->
     let stale := stat (ds3231_ c) in
     bus_writes (after_failed_read (events (write_time is_valid c))) =
     (if get_flag stale Stat.osc_stop
      then [(DS3231_STATUS_ADDRESS, raw_bytes 1 (set_flag stale Stat.osc_stop false))]
      else [])
     ++ [(DS3231_RTC_ADDRESS, raw_bytes 7 (encode_rtc (utcnow c) (rtc (ds3231_ c))))]) /\
  (forall value mode c, next_ok (bus c) = false ->
     let stale := ctrl (ds3231_ c) in
     bus_writes (after_failed_read (events (set_sqw_mode value mode c))) =
     if is_alarm_interupt mode && negb (get_flag stale Ctrl.int_ctrl)
     then [(DS3231_CONTROL_ADDRESS, raw_bytes 1 (set_flag stale Ctrl.int_ctrl true))]
     else if get_flag stale Ctrl.int_ctrl
             || negb (get_field stale Ctrl.rs =? mode_value value mode)
     then [(DS3231_CONTROL_ADDRESS,
            raw_bytes 1 (set_field (set_flag stale Ctrl.int_ctrl false) Ctrl.rs
                           (mode_value value mode)))]
     else []).
Proof.
  repeat apply conj.
  - intros c. unfold setup. run; try reflexivity; intros H; exfalso; apply H; reflexivity.
  - intros c done. unfold done, read_time. clear done.
    run; try (split; reflexivity); intros H; exfalso; apply H; reflexivity.
  - intros alarm_number c Hbus stale. unfold stale, reset_alarm. clear stale.
    unfold_access. reduce. rewrite Hbus.
    destruct alarm_number; run; clash; reflexivity.
  - intros alarm_type second minute hour day c done. unfold done, set_alarm, alarm_group,
      targets_alarm_1. clear done.
    run; intros H; try (exfalso; apply H; reflexivity); eexists; cbn; tauto.
  - intros alarm_type second minute hour day c done Hread.
    unfold done, set_alarm, targets_alarm_1. clear done.
    destruct c as [img [r sc] f now]. unfold outcome in Hread. cbn [bus script] in Hread.
    destruct sc as [ | o0 [ | o1 sc ] ]; cbn in Hread; try discriminate. subst o1.
    destruct o0; run; reflexivity.
  - intros alarm_type second minute hour day c done stale enable Hbus.
    unfold done, stale, enable, set_alarm, alarm_group, alrm_int, targets_alarm_1.
    clear done stale enable.
    unfold_access. reduce. rewrite Hbus. run; clash; eexists; reflexivity.
  - intros c Hvalid Hbus stale. unfold stale, write_time. clear stale.
    unfold_access. reduce. rewrite Hvalid. reduce. rewrite Hbus. run; clash; reflexivity.
  - intros value mode c Hbus stale. unfold stale, set_sqw_mode. clear stale.
    unfold_access. reduce. rewrite Hbus. run; clash; reflexivity.
Qed.

End TimeSyncProperties.

Lemma read_time_oscillator_stopped_witness :
  let c := component_on 0x80 [] midnight in
  Z.testbit (regs (bus c) DS3231_STATUS_ADDRESS) 7 = true /\
  synchronized (events (read_time fields_in_range flat_timestamp c)) = [] /\
  warnings (events (read_time fields_in_range flat_timestamp c)) =
  ["RTC halted, not syncing to system clock."%string].
Proof.
  intros c.
  assert (Hstop : Z.testbit (regs (bus c) DS3231_STATUS_ADDRESS) 7 = true) by reflexivity.
  pose proof (read_time_oscillator_stopped fields_in_range flat_timestamp c Hstop) as H.
  cbv zeta in H. destruct H as (Hsync & _ & _ & _ & _ & Hev).
  split; [ exact Hstop | split; [ exact Hsync | ] ].
  rewrite Hev. reflexivity.
Defined.

Lemma read_time_invalid_time_witness :
  let bad := component_on 0x7F [] midnight in
  let good := component_on 0x01 [] midnight in
  let decoded c := decode_rtc (raw_of_bytes (chip_bytes (regs (bus c)) DS3231_RTC_ADDRESS 7)) in
  let rtc_time c := with_timestamp (flat_timestamp (decoded c)) (decoded c) in
  (fields_in_range (rtc_time bad) = false /\
   synchronized (events (read_time fields_in_range flat_timestamp bad)) = []) /\
  (In 996368461 (synchronized (events (read_time fields_in_range flat_timestamp good))) /\
   fields_in_range (rtc_time good) = true).
Proof.
  intros bad good decoded rtc_time.
  assert (Hbad : fields_in_range (rtc_time bad) = false) by (vm_compute; reflexivity).
  assert (Hgood : In 996368461
            (synchronized (events (read_time fields_in_range flat_timestamp good))))
    by (vm_compute; left; reflexivity).
  pose proof (read_time_invalid_time fields_in_range flat_timestamp bad) as H1.
  pose proof (read_time_invalid_time fields_in_range flat_timestamp good) as H2.
  cbv zeta in H1, H2. destruct H1 as [H1 _]. destruct H2 as [_ H2].
  split; [ split; [ exact Hbad | exact (H1 Hbad) ] | ].
  split; [ exact Hgood | exact (proj1 (H2 _ Hgood)) ].
Defined.

Lemma write_time_invalid_host_time_witness :
  let c := component_on 0 [] (mkTime 0 0 0 0 0 0 0 0 0) in
  fields_in_range (utcnow c) = false /\
  bus_reads (events (write_time fields_in_range c)) = [] /\
  bus_writes (events (write_time fields_in_range c)) = [].
Proof.
  intros c.
  assert (Hinv : fields_in_range (utcnow c) = false) by reflexivity.
  pose proof (write_time_invalid_host_time fields_in_range c Hinv) as H.
  cbv zeta in H. destruct H as (Hr & Hw & _).
  exact (conj Hinv (conj Hr Hw)).
Defined.

(** With the first transaction refused, [reset_alarm], [set_alarm],
    [write_time] and [set_sqw_mode] each go on to write: none of them abandons
    its bus writes after a refused read. *)
Lemma failed_read_does_not_abandon :
  ~ abandons_after_failed_read (reset_alarm ALARM_1) /\
  ~ abandons_after_failed_read (set_alarm 0x4E 30 15 8 1) /\
  ~ abandons_after_failed_read (write_time fields_in_range) /\
  ~ abandons_after_failed_read (set_sqw_mode 4 SQUARE_WAVE_1KHZ).
Proof.
  repeat apply conj; intros H;
    specialize (H (component_on 0x83 [false] midnight)); vm_compute in H; discriminate H.
Qed.

(** A chip whose status register holds 0x83 (oscillator stopped, both alarms
    active), a status image never read (0x00) and a refused status read:
    [reset_alarm] logs the error, then writes the image, and the chip's status
    register ends at 0x00. *)
Example reset_alarm_refused_read_overwrites_status :
  let done := reset_alarm ALARM_1 (component_on 0x83 [false] midnight) in
  events done =
  [BusRead 0x0F 1 false; Log LOGE "Can't read I2C data.";
   BusWrite 0x0F [0x00] true; Log LOGD "Write A1:%s A2:%s BSY:%s 32K:%s OSC:%s"] /\
  regs (bus (state done)) 0x0F = 0x00.
Proof.
  vm_compute. split; reflexivity.
Qed.

Lemma failed_read_handling_witness :
  let refused fill := component_on fill [false] midnight in
  let second_refused := component_on 0 [true; false] midnight in
  let alarm := set_alarm 0x4E 30 15 8 1 second_refused in
  failed (state (setup second_refused)) = true /\
  synchronized (events (read_time fields_in_range flat_timestamp
                          (component_on 1 [true; false] midnight))) = [] /\
  bus_writes (after_failed_read (events (reset_alarm ALARM_1 (refused 0x83)))) =
  [(0x0F, [0x00])] /\
  (exists address,
     In (address, alarm_group 0x4E (ds3231_ (state alarm)))
        (bus_writes (after_failed_read (events alarm)))) /\
  alrm_1 (ds3231_ (state alarm)) = encode_alrm_1 0x4E 30 15 8 1 0 /\
  (exists address,
     bus_writes (after_failed_read (events (set_alarm 0x4E 30 15 8 1 (refused 0)))) =
     [(address, [0x30; 0x95; 0x88; 0x81]); (0x0E, [0x01])]) /\
  bus_writes (after_failed_read (events (write_time fields_in_range (refused 0)))) =
  [(0x00, [0x00; 0x00; 0x00; 0x01; 0x01; 0x01; 0x24])] /\
  bus_writes (after_failed_read (events (set_sqw_mode 4 SQUARE_WAVE_1KHZ (refused 0)))) =
  [(0x0E, [0x08])].
Proof.
  intros refused second_refused alarm.
  pose proof (failed_read_handling fields_in_range flat_timestamp) as H.
  destruct H as (H1 & H2 & H3 & H4 & H5 & H6 & H7 & H8).
  split; [ | split; [ | split; [ | split; [ | split; [ | split; [ | split ] ] ] ] ] ].
  - apply H1. vm_compute. discriminate.
  - pose proof (H2 (component_on 1 [true; false] midnight)) as H. cbv zeta in H.
    apply H. vm_compute. discriminate.
  - pose proof (H3 ALARM_1 (refused 0x83) eq_refl) as H. cbv zeta in H.
    rewrite H. reflexivity.
  - pose proof (H4 0x4E 30 15 8 1 second_refused) as H. cbv zeta in H.
    apply H. vm_compute. discriminate.
  - exact (H5 0x4E 30 15 8 1 second_refused eq_refl).
  - pose proof (H6 0x4E 30 15 8 1 (refused 0) eq_refl) as H. cbv zeta in H.
    destruct H as [address H]. exists address. rewrite H. reflexivity.
  - pose proof (H7 (refused 0) eq_refl eq_refl) as H. cbv zeta in H.
    rewrite H. reflexivity.
  - pose proof (H8 4 SQUARE_WAVE_1KHZ (refused 0) eq_refl) as H. cbv zeta in H.
    rewrite H. reflexivity.
Defined.

(** ** Alarm acknowledgement *)

(** C8 -- For either alarm number and any state, [reset_alarm] issues exactly
    one bus write, of the status register, even when the alarm's active flag
    is already clear.  The image it writes is the one it read with that flag
    cleared when it was set and untouched otherwise: the flag is clear in it
    and every other bit is the bit read.  The image read is the chip's status
    register when the bus acknowledges the read. *)
Theorem reset_alarm_writes_status (alarm_number : DS3231AlarmNumber) (c : DS3231Component) :
  let read := stat (ds3231_ (state (read_stat_ c))) in
  let act := alrm_act alarm_number in
  let done := reset_alarm alarm_number c in
  let written := stat (ds3231_ (state done)) in
  bus_writes (events done) = [(DS3231_STATUS_ADDRESS, raw_bytes 1 written)] /\
  written = (if get_flag read act then set_flag read act false else read) /\
  get_flag written act = false /\
  (forall i, 0 <= i -> i <> bf_pos act -> Z.testbit written i = Z.testbit read i) /\
  read = (if next_ok (bus c)
          then raw_of_bytes [regs (bus c) DS3231_STATUS_ADDRESS]
          else stat (ds3231_ c)).
Proof.
  intros read act done written.
  assert (Hw : written = (if get_flag read act then set_flag read act false else read)).
  { unfold written, done, read, act, reset_alarm.
    destruct alarm_number; run; clash; reflexivity. }
  split; [ | split; [ exact Hw | split; [ | split ] ] ].
  - unfold written, done, reset_alarm. destruct alarm_number; run; reflexivity.
  - rewrite Hw. destruct (get_flag read act) eqn:E.
    + apply get_flag_set_flag; destruct alarm_number; reflexivity.
    + exact E.
  - intros i Hi Hne. rewrite Hw. destruct (get_flag read act); [ | reflexivity ].
    apply set_flag_frame; try assumption; destruct alarm_number; reflexivity.
  - unfold read. run; reflexivity.
Qed.

Lemma reset_alarm_writes_status_witness :
  let c := component_on 0x83 [] midnight in
  let done := reset_alarm ALARM_1 c in
  (0 <= 7 /\ 7 <> bf_pos (alrm_act ALARM_1)) /\
  Z.testbit (stat (ds3231_ (state done))) 7 = Z.testbit (stat (ds3231_ (state (read_stat_ c)))) 7 /\
  bus_writes (events done) = [(0x0F, [0x82])].
Proof.
  intros c done.
  assert (Hi : 0 <= 7) by lia.
  assert (Hne : 7 <> bf_pos (alrm_act ALARM_1)) by (cbn; lia).
  pose proof (reset_alarm_writes_status ALARM_1 c) as H. cbv zeta in H.
  destruct H as (Hw & _ & _ & Hframe & _).
  split; [ exact (conj Hi Hne) | split; [ exact (Hframe 7 Hi Hne) | ] ].
  unfold done. rewrite Hw. reflexivity.
Defined.

(** ** Alarm configuration *)



Lemma decode_encode_alrm_1_example raw :
  decode_alrm_1 (encode_alrm_1 0x4E 30 15 8 1 raw) = alarm_1_example.
Proof.
  unfold decode_alrm_1, encode_alrm_1, alarm_1_example. fields. reflexivity.
Qed.

Lemma decode_alrm_1_raw_bytes raw :
  decode_alrm_1 (raw_of_bytes (raw_bytes Alrm1.size raw)) = decode_alrm_1 raw.
Proof.
  unfold decode_alrm_1, get_flag.
  rewrite !get_field_raw_of_raw_bytes by reflexivity. reflexivity.
Qed.

Ltac alarm_1_example_branch :=
  unfold set_alarm;
  change (negb (to_bool (Z.land 0x4E DS3231_ALARM_TYPE_ALARM_NUMBER))) with true;
  cbv iota;
  unfold set_alarm_int;
  change (to_bool (Z.land 0x4E DS3231_ALARM_TYPE_INTERUPT)) with true.

(** C10 -- [set_alarm] for alarm 1 with second 30, minute 15, hour 8, day 1,
    match bits M2, M3 and M4, day of month and the interrupt enabled
    (alarm type 0x4E) leaves an alarm 1 image that reads back as exactly those
    fields, M1 clear, M2, M3 and M4 set, day mode clear, and a control image
    with the alarm 1 interrupt enable set; the alarm bytes it sends to the bus
    are that image; and over a bus that never refuses, the chip's alarm 1
    registers read back the same and its control register has the enable
    set. *)
Theorem set_alarm_1_reads_back (c : DS3231Component) :
  let done := set_alarm 0x4E 30 15 8 1 c in
  let chip := regs (bus (state done)) in
  decode_alrm_1 (alrm_1 (ds3231_ (state done))) = alarm_1_example /\
  get_flag (ctrl (ds3231_ (state done))) Ctrl.alrm_1_int = true /\
  (exists ok, In (BusWrite DS3231_ALARM_1_ADDRESS
                    (raw_bytes 4 (alrm_1 (ds3231_ (state done)))) ok) (events done)) /\
  (script (bus c) = [] ->
   decode_alrm_1 (raw_of_bytes (chip_bytes chip DS3231_ALARM_1_ADDRESS 4)) = alarm_1_example /\
   get_flag (raw_of_bytes (chip_bytes chip DS3231_CONTROL_ADDRESS 1)) Ctrl.alrm_1_int = true).
Proof.
  intros done chip. unfold chip, done. clear done chip.
  split; [ | split; [ | split ] ].
  - alarm_1_example_branch. run; apply decode_encode_alrm_1_example.
  - alarm_1_example_branch. run; clash; try (apply get_flag_set_flag; reflexivity).
    all: match goal with
         | H : negb (Bool.eqb ?x true) = false |- ?x = true =>
             destruct x; [ reflexivity | discriminate H ]
         end.
  - alarm_1_example_branch. run; eexists; cbn; tauto.
  - intros Hbus. destruct c as [img [r sc] f now]. cbn in Hbus. subst sc.
    alarm_1_example_branch. run; clash.
    + rewrite chip_bytes_chip_store_other by reflexivity.
      change 4%nat with Alrm1.size. change 1%nat with Ctrl.size.
      rewrite !chip_bytes_raw_bytes.
      rewrite decode_alrm_1_raw_bytes, decode_encode_alrm_1_example.
      split; [ reflexivity | ].
      unfold get_flag. rewrite get_field_raw_of_raw_bytes by reflexivity.
      apply (get_flag_set_flag _ Ctrl.alrm_1_int true); reflexivity.
    + change 4%nat with Alrm1.size. change 1%nat with Ctrl.size.
      rewrite chip_bytes_raw_bytes.
      rewrite decode_alrm_1_raw_bytes, decode_encode_alrm_1_example.
      split; [ reflexivity | ].
      rewrite chip_bytes_chip_store_other by reflexivity.
      match goal with
      | H : negb (Bool.eqb ?x true) = false |- ?x = true =>
          destruct x; [ reflexivity | discriminate H ]
      end.
Qed.

Lemma set_alarm_1_reads_back_witness :
  let c := component_on 0 [] midnight in
  let chip := regs (bus (state (set_alarm 0x4E 30 15 8 1 c))) in
  script (bus c) = [] /\
  decode_alrm_1 (raw_of_bytes (chip_bytes chip DS3231_ALARM_1_ADDRESS 4)) = alarm_1_example /\
  get_flag (raw_of_bytes (chip_bytes chip DS3231_CONTROL_ADDRESS 1)) Ctrl.alrm_1_int = true.
Proof.
  intros c chip.
  assert (Hbus : script (bus c) = []) by reflexivity.
  pose proof (set_alarm_1_reads_back c) as H. cbv zeta in H.
  destruct H as (_ & _ & _ & Hchip).
  exact (conj Hbus (Hchip Hbus)).
Defined.

(** * Further properties *)

(** ** More on the chip and the byte view *)

Lemma chip_store_outside r address data a :
  a < address \/ address + Z.of_nat (List.length data) <= a ->
  chip_store r address data a = r a.
Proof.
  intros Hout. unfold chip_store.
  replace ((address <=? a) && (a <? address + Z.of_nat (List.length data))) with false;
    [ reflexivity | ].
  symmetry. apply andb_false_iff.
  destruct Hout; [ left; apply Z.leb_gt | right; apply Z.ltb_ge ]; lia.
Qed.

Lemma chip_store_single r address b : chip_store r address [b] address = b.
Proof.
  unfold chip_store. cbn [List.length].
  replace (address <=? address) with true by (symmetry; apply Z.leb_le; lia).
  replace (address <? address + Z.of_nat 1) with true by (symmetry; apply Z.ltb_lt; lia).
  rewrite Z.sub_diag. reflexivity.
Qed.

Lemma testbit_raw_byte raw k i :
  0 <= k -> 0 <= i < 8 -> Z.testbit (raw_byte raw k) i = Z.testbit raw (i + 8 * k).
Proof.
  intros Hk Hi. unfold raw_byte.
  rewrite Z.land_spec, Z.shiftr_spec by lia.
  change 0xFF with (Z.ones 8). rewrite testbit_ones_nonneg by lia.
  replace (i <? 8) with true by (symmetry; apply Z.ltb_lt; lia).
  apply andb_true_r.
Qed.

Lemma testbit_raw_byte_0 raw i : 0 <= i < 8 -> Z.testbit (raw_byte raw 0) i = Z.testbit raw i.
Proof.
  intros Hi. rewrite testbit_raw_byte by lia. f_equal. lia.
Qed.

(** One-byte groups on the chip. *)
Lemma testbit_image_of_chip r address i :
  0 <= i < 8 ->
  Z.testbit (raw_of_bytes (chip_bytes r address 1)) i = Z.testbit (r address) i.
Proof.
  intros Hi. unfold chip_bytes. cbn [seq map Z.of_nat]. rewrite Z.add_0_r.
  apply testbit_raw_of_byte. assumption.
Qed.

Lemma testbit_chip_store_byte r address raw i :
  0 <= i < 8 ->
  Z.testbit (chip_store r address (raw_bytes 1 raw) address) i = Z.testbit raw i.
Proof.
  intros Hi. change (raw_bytes 1 raw) with [raw_byte raw 0].
  rewrite chip_store_single. apply testbit_raw_byte_0. assumption.
Qed.

Lemma get_flag_raw_of_raw_bytes raw n f :
  wf_field f = true -> fits f n = true ->
  get_flag (raw_of_bytes (raw_bytes n raw)) f = get_flag raw f.
Proof.
  intros Hf Hn. unfold get_flag. rewrite get_field_raw_of_raw_bytes by assumption. reflexivity.
Qed.

Lemma set_field_outside raw f v i :
  wf_field f = true -> 0 <= i -> in_field f i = false ->
  Z.testbit (set_field raw f v) i = Z.testbit raw i.
Proof.
  intros Hf Hi Hout. rewrite testbit_set_field by assumption.
  unfold in_field in Hout. rewrite Hout. reflexivity.
Qed.

Lemma eqb_negb_false a b : negb (Bool.eqb a b) = false -> a = b.
Proof. destruct a, b; cbn; congruence. Qed.

Lemma uint8_small v : 0 <= v < 256 -> uint8_t v = v.
Proof. intros H. unfold uint8_t. apply Z.mod_small. cbn. lia. Qed.

Lemma to_bool_flag b w : w = 1 -> to_bool (Z.land (Z.b2z b) (Z.ones w)) = b.
Proof. intros ->. destruct b; reflexivity. Qed.

Ltac sizes :=
  change RTC.size with 7%nat in *; change Alrm1.size with 4%nat in *;
  change Alrm2.size with 3%nat in *; change Ctrl.size with 1%nat in *;
  change Stat.size with 1%nat in *.

Ltac addresses :=
  unfold DS3231_RTC_ADDRESS, DS3231_ALARM_1_ADDRESS, DS3231_ALARM_2_ADDRESS,
         DS3231_CONTROL_ADDRESS, DS3231_STATUS_ADDRESS in *.

Ltac frame_store :=
  repeat (rewrite chip_store_outside by (rewrite ?length_raw_bytes; addresses; cbn; lia)).

(** ** Coding of the time and alarm groups *)

(** The time registers give back what [write_time] stored in them. *)
Lemma decode_encode_rtc now raw :
  storable now -> decode_rtc (encode_rtc now raw) = as_stored now.
Proof.
  intros (Hs & Hm & Hh & Hw & Hd & Hmo & Hy).
  unfold decode_rtc, encode_rtc, as_stored. fields.
  rewrite !bcd_digits by (cbn; first [ lia | apply Z.div_lt_upper_bound; lia ]).
  rewrite (land_ones_small (day_of_week now)) by (cbn; lia).
  rewrite !uint8_small by lia.
  f_equal.
  rewrite (Z.rem_mod_nonneg (Z.quot _ _)), Z.rem_mod_nonneg, Z.quot_div_nonneg by
    (try apply Z.quot_pos; lia).
  assert (Hq : 0 <= (year now - 2000) / 10 <= 9).
  { split; [ apply Z.div_pos; lia | ].
    apply Z.lt_succ_r. apply Z.div_lt_upper_bound; lia. }
  rewrite (Z.mod_small ((year now - 2000) / 10)) by lia.
  pose proof (Z.mod_pos_bound (year now - 2000) 10).
  rewrite !land_ones_small by (cbn; lia).
  pose proof (Z.div_mod (year now - 2000) 10).
  unfold uint16_t. change (2 ^ 16) with 65536. rewrite Z.mod_small; lia.
Qed.

Lemma decode_rtc_raw_bytes raw :
  decode_rtc (raw_of_bytes (raw_bytes 7 raw)) = decode_rtc raw.
Proof.
  unfold decode_rtc. rewrite !get_field_raw_of_raw_bytes by reflexivity. reflexivity.
Qed.

Lemma decode_encode_alrm_1 alarm_type second minute hour day raw :
  0 <= second <= 59 -> 0 <= minute <= 59 -> 0 <= hour <= 23 -> 0 <= day <= 31 ->
  decode_alrm_1 (encode_alrm_1 alarm_type second minute hour day raw) =
  alarm_1_fields alarm_type second minute hour day.
Proof.
  intros Hs Hm Hh Hd. unfold decode_alrm_1, encode_alrm_1, alarm_1_fields. fields.
  rewrite !bcd_digits by (cbn; first [ lia | apply Z.div_lt_upper_bound; lia ]).
  rewrite !uint8_small by lia.
  rewrite !to_bool_flag by reflexivity. reflexivity.
Qed.

Lemma decode_encode_alrm_2 alarm_type minute hour day raw :
  0 <= minute <= 59 -> 0 <= hour <= 23 -> 0 <= day <= 31 ->
  decode_alrm_2 (encode_alrm_2 alarm_type minute hour day raw) =
  alarm_2_fields alarm_type minute hour day.
Proof.
  intros Hm Hh Hd. unfold decode_alrm_2, encode_alrm_2, alarm_2_fields. fields.
  rewrite !bcd_digits by (cbn; first [ lia | apply Z.div_lt_upper_bound; lia ]).
  rewrite !uint8_small by lia.
  rewrite !to_bool_flag by reflexivity. reflexivity.
Qed.

Lemma decode_alrm_1_of_raw_bytes raw :
  decode_alrm_1 (raw_of_bytes (raw_bytes 4 raw)) = decode_alrm_1 raw.
Proof.
  unfold decode_alrm_1, get_flag.
  rewrite !get_field_raw_of_raw_bytes by reflexivity. reflexivity.
Qed.

(** X8 -- [write_time] stores into the named fields of the time image only:
    every bit of the group that no field covers (bit 7 of the seconds and
    minutes bytes, bits 6 and 7 of the hours byte, and so on) keeps the value
    it had in the image. *)
Theorem encode_rtc_keeps_unused_bits (now : ESPTime) (raw : Z) (i : Z) :
  rtc_unused_bit i = true ->
  Z.testbit (encode_rtc now raw) i = Z.testbit raw i.
Proof.
  unfold rtc_unused_bit. cbn [forallb rtc_fields]. intros H.
  repeat match type of H with
         | _ && _ = true => apply andb_prop in H; destruct H as [? H]
         end.
  repeat match goal with
         | H : negb _ = true |- _ => apply negb_true_iff in H
         end.
  match goal with H : (0 <=? i) = true |- _ => apply Z.leb_le in H end.
  unfold encode_rtc. rewrite !set_field_outside by (reflexivity || assumption).
  reflexivity.
Qed.

Lemma encode_rtc_keeps_unused_bits_witness :
  rtc_unused_bit 22 = true /\
  Z.testbit (encode_rtc midnight (2 ^ 22)) 22 = true.
Proof.
  assert (H : rtc_unused_bit 22 = true) by reflexivity.
  split; [ exact H | ].
  rewrite (encode_rtc_keeps_unused_bits midnight (2 ^ 22) 22 H). reflexivity.
Defined.

(** ** setup, further *)

(** X1 -- [setup] reads the five groups in order whatever the bus answers (a
    refused read does not stop it), writes nothing and leaves the chip alone;
    afterwards the component is failed exactly when it was failed before or
    one of the reads was refused. *)
Theorem setup_reads_every_group (c : DS3231Component) :
  let done := setup c in
  bus_reads (events done) =
  [(DS3231_RTC_ADDRESS, 7%nat); (DS3231_ALARM_1_ADDRESS, 4%nat);
   (DS3231_ALARM_1_ADDRESS, 3%nat); (DS3231_CONTROL_ADDRESS, 1%nat);
   (DS3231_STATUS_ADDRESS, 1%nat)] /\
  bus_writes (events done) = [] /\
  synchronized (events done) = [] /\
  regs (bus (state done)) = regs (bus c) /\
  failed (state done) = failed c || any_failed_read (events done).
Proof.
  unfold setup. run; repeat split; rewrite ?orb_true_r, ?orb_false_r; reflexivity.
Qed.

(** X2 -- After [setup], each group of the image holds the bytes read for it
    when its read was acknowledged and is as before when its read was
    refused, independently of the other four reads.  (The bytes read for
    alarm 2 are the three at [DS3231_ALARM_1_ADDRESS].) *)
Theorem setup_mirrors_acknowledged_groups (c : DS3231Component) :
  let chip := regs (bus c) in
  let before := ds3231_ c in
  let after := ds3231_ (state (setup c)) in
  rtc after = (if outcome 0 c then raw_of_bytes (chip_bytes chip DS3231_RTC_ADDRESS 7)
               else rtc before) /\
  alrm_1 after = (if outcome 1 c then raw_of_bytes (chip_bytes chip DS3231_ALARM_1_ADDRESS 4)
                  else alrm_1 before) /\
  alrm_2 after = (if outcome 2 c then raw_of_bytes (chip_bytes chip DS3231_ALARM_1_ADDRESS 3)
                  else alrm_2 before) /\
  ctrl after = (if outcome 3 c then raw_of_bytes (chip_bytes chip DS3231_CONTROL_ADDRESS 1)
                else ctrl before) /\
  stat after = (if outcome 4 c then raw_of_bytes (chip_bytes chip DS3231_STATUS_ADDRESS 1)
                else stat before).
Proof.
  destruct c as [img [r sc] f now]. unfold outcome. cbn [bus script].
  destruct sc as [ | [ | ] [ | [ | ] [ | [ | ] [ | [ | ] [ | [ | ] sc ] ] ] ] ];
    unfold setup; run; repeat split; reflexivity.
Qed.

(** ** Time synchronization, further *)

Section TimeSyncFurther.

Variable is_valid : ESPTime -> bool.
Variable recalc_timestamp_utc : ESPTime -> Z.

(** X3 -- [read_time] only reads: it issues no bus write and leaves the chip
    as it was; it reads the status register, then at most the time group;
    it updates the host clock at most once; and it touches neither the alarm
    and control images nor the failed mark. *)
Theorem read_time_only_reads (c : DS3231Component) :
  let done := read_time is_valid recalc_timestamp_utc c in
  bus_writes (events done) = [] /\
  regs (bus (state done)) = regs (bus c) /\
  (bus_reads (events done) = [(DS3231_STATUS_ADDRESS, 1%nat)] \/
   bus_reads (events done) = [(DS3231_STATUS_ADDRESS, 1%nat); (DS3231_RTC_ADDRESS, 7%nat)]) /\
  (List.length (synchronized (events done)) <= 1)%nat /\
  alrm_1 (ds3231_ (state done)) = alrm_1 (ds3231_ c) /\
  alrm_2 (ds3231_ (state done)) = alrm_2 (ds3231_ c) /\
  ctrl (ds3231_ (state done)) = ctrl (ds3231_ c) /\
  failed (state done) = failed c.
Proof.
  unfold read_time. run; repeat split; cbn; auto.
Qed.

(** X4 -- When the bus acknowledges the two reads, the chip's
    oscillator-stopped flag is clear and the time decoded from the chip's time
    registers validates, [read_time] hands exactly that time's timestamp to
    the host clock, and the time image holds the bytes read. *)
Theorem read_time_synchronizes (c : DS3231Component) :
  let decoded := decode_rtc (raw_of_bytes (chip_bytes (regs (bus c)) DS3231_RTC_ADDRESS 7)) in
  let rtc_time := with_timestamp (recalc_timestamp_utc decoded) decoded in
  let done := read_time is_valid recalc_timestamp_utc c in
  next_ok (bus c) = true -> next_ok (advance (bus c)) = true ->
  Z.testbit (regs (bus c) DS3231_STATUS_ADDRESS) 7 = false ->
  is_valid rtc_time = true ->
  synchronized (events done) = [recalc_timestamp_utc decoded] /\
  rtc (ds3231_ (state done)) = raw_of_bytes (chip_bytes (regs (bus c)) DS3231_RTC_ADDRESS 7).
Proof.
  intros decoded rtc_time done Hok1 Hok2 Hosc Hvalid.
  unfold done, rtc_time, decoded, read_time in *. clear done rtc_time decoded.
  unfold_access. reduce. rewrite Hok1. reduce.
  rewrite stat_osc_stop_of_chip, Hosc. reduce. rewrite Hok2. reduce.
  change RTC.size with 7%nat. rewrite Hvalid. reduce. split; reflexivity.
Qed.

(** X5 -- With a valid host time, [write_time] reads the status register and
    nothing else (the time group is not read back first); it writes the status
    register, with the oscillator-stopped flag cleared, only when the status
    image has that flag set; its last write is the seven time bytes, encoded
    over the time image it had in memory; and it never updates the host
    clock. *)
Theorem write_time_transactions (c : DS3231Component) :
  is_valid (utcnow c) = true ->
  let read := stat (ds3231_ (state (read_stat_ c))) in
  let done := write_time is_valid c in
  bus_reads (events done) = [(DS3231_STATUS_ADDRESS, 1%nat)] /\
  bus_writes (events done) =
  (if get_flag read Stat.osc_stop
   then [(DS3231_STATUS_ADDRESS, raw_bytes 1 (set_flag read Stat.osc_stop false))]
   else [])
  ++ [(DS3231_RTC_ADDRESS, raw_bytes 7 (encode_rtc (utcnow c) (rtc (ds3231_ c))))] /\
  synchronized (events done) = [].
Proof.
  intros Hvalid read done. unfold done, read, write_time. clear done read.
  unfold_access. reduce. rewrite Hvalid. run; clash; repeat split; reflexivity.
Qed.

(** X6 -- With a valid host time and a bus that never refuses, [write_time]
    leaves the chip's oscillator-stopped flag (bit 7 of the status register)
    clear and the other seven status bits as they were on the chip. *)
Theorem write_time_restarts_oscillator (c : DS3231Component) :
  is_valid (utcnow c) = true -> script (bus c) = [] ->
  let chip := regs (bus (state (write_time is_valid c))) in
  Z.testbit (chip DS3231_STATUS_ADDRESS) 7 = false /\
  (forall i, 0 <= i < 7 ->
     Z.testbit (chip DS3231_STATUS_ADDRESS) i =
     Z.testbit (regs (bus c) DS3231_STATUS_ADDRESS) i).
Proof.
  intros Hvalid Hbus. destruct c as [img [r sc] f now]. cbn in Hbus, Hvalid. subst sc.
  unfold write_time. unfold_access. reduce. rewrite Hvalid. run; sizes.
  - frame_store. change (raw_bytes 1 ?x) with [raw_byte x 0].
    rewrite chip_store_single. split.
    + rewrite testbit_raw_byte_0 by lia.
      rewrite <- (get_flag_testbit _ Stat.osc_stop) by reflexivity.
      apply get_flag_set_flag; reflexivity.
    + intros i Hi. rewrite testbit_raw_byte_0 by lia.
      unfold set_flag. rewrite set_field_frame by (try reflexivity; cbn; lia).
      apply testbit_raw_of_byte. lia.
  - frame_store. split; [ | reflexivity ].
    rewrite <- stat_osc_stop_of_chip. assumption.
Qed.

(** X7 -- [write_time] followed by [read_time], over a bus that never
    refuses: when the host time is valid, its fields are in the ranges the
    registers hold (years 2000 to 2099) and the time read back validates, the
    host clock is handed the timestamp of the very time that was written
    (seconds, minutes, hours, weekday, day, month and year), even when the
    chip's oscillator had been stopped. *)
Theorem write_time_then_read_time (c : DS3231Component) :
  let now := utcnow c in
  let stored := as_stored now in
  is_valid now = true -> script (bus c) = [] -> storable now ->
  is_valid (with_timestamp (recalc_timestamp_utc stored) stored) = true ->
  synchronized (events (read_time is_valid recalc_timestamp_utc (state (write_time is_valid c))))
  = [recalc_timestamp_utc stored].
Proof.
  intros now stored Hvalid Hbus Hrange Hstored. unfold stored, now in *. clear stored now.
  destruct c as [img [r sc] f now]. cbn in Hbus, Hvalid, Hrange, Hstored. subst sc.
  unfold write_time, read_time. unfold_access. reduce. rewrite Hvalid.
  run; sizes.
  all: repeat match goal with
       | H : context [chip_bytes (chip_store _ _ _) _ _] |- _ =>
           first [ rewrite chip_bytes_raw_bytes in H
                 | rewrite chip_bytes_chip_store_other in H by reflexivity ]
       | |- context [chip_bytes (chip_store _ _ _) _ _] =>
           first [ rewrite chip_bytes_raw_bytes
                 | rewrite chip_bytes_chip_store_other by reflexivity ]
       end.
  all: rewrite ?decode_rtc_raw_bytes, ?decode_encode_rtc in * by assumption.
  all: rewrite ?get_flag_raw_of_raw_bytes in * by reflexivity.
  all: rewrite ?get_flag_set_flag in * by reflexivity.
  all: try reflexivity.
  all: clash.
Qed.

End TimeSyncFurther.

Lemma read_time_synchronizes_witness :
  let c := component_on 0x01 [] midnight in
  Z.testbit (regs (bus c) DS3231_STATUS_ADDRESS) 7 = false /\
  synchronized (events (read_time fields_in_range flat_timestamp c)) = [996368461].
Proof.
  intros c.
  assert (Hosc : Z.testbit (regs (bus c) DS3231_STATUS_ADDRESS) 7 = false) by reflexivity.
  pose proof (read_time_synchronizes fields_in_range flat_timestamp c) as H. cbv zeta in H.
  destruct (H eq_refl eq_refl Hosc eq_refl) as [Hsync _].
  exact (conj Hosc Hsync).
Defined.

Lemma write_time_transactions_witness :
  let now := mkTime 30 15 8 3 25 360 12 2024 77 in
  let c := component_on 0x80 [] now in
  fields_in_range (utcnow c) = true /\
  bus_reads (events (write_time fields_in_range c)) = [(0x0F, 1%nat)] /\
  bus_writes (events (write_time fields_in_range c)) =
  [(0x0F, [0x00]); (0x00, [0x30; 0x15; 0x08; 0x03; 0x25; 0x12; 0x24])].
Proof.
  intros now c.
  assert (Hvalid : fields_in_range (utcnow c) = true) by reflexivity.
  pose proof (write_time_transactions fields_in_range c Hvalid) as H. cbv zeta in H.
  destruct H as (Hr & Hw & _).
  split; [ exact Hvalid | split; [ exact Hr | ] ].
  rewrite Hw. reflexivity.
Defined.

Lemma write_time_restarts_oscillator_witness :
  let c := component_on 0x8B [] midnight in
  let chip := regs (bus (state (write_time fields_in_range c))) in
  (fields_in_range (utcnow c) = true /\ script (bus c) = []) /\
  Z.testbit (chip DS3231_STATUS_ADDRESS) 7 = false /\
  Z.testbit (chip DS3231_STATUS_ADDRESS) 3 = Z.testbit 0x8B 3.
Proof.
  intros c chip.
  assert (Hvalid : fields_in_range (utcnow c) = true) by reflexivity.
  assert (Hbus : script (bus c) = []) by reflexivity.
  pose proof (write_time_restarts_oscillator fields_in_range c Hvalid Hbus) as H.
  cbv zeta in H. destruct H as [Hclear Hframe].
  assert (Hi : 0 <= 3 < 7) by lia.
  exact (conj (conj Hvalid Hbus) (conj Hclear (Hframe 3 Hi))).
Defined.

Lemma write_time_then_read_time_witness :
  let now := mkTime 30 15 8 3 25 360 12 2024 77 in
  let c := component_on 0x80 [] now in
  storable now /\
  synchronized (events (read_time fields_in_range flat_timestamp
                          (state (write_time fields_in_range c)))) = [1767168930].
Proof.
  intros now c.
  assert (Hrange : storable (utcnow c)) by (unfold storable; cbn; lia).
  pose proof (write_time_then_read_time fields_in_range flat_timestamp c) as H.
  cbv zeta in H.
  exact (conj Hrange (H eq_refl eq_refl Hrange eq_refl)).
Defined.

(** ** Alarm configuration, further *)

(** X9 -- For alarm 1 and a time of day in range, [set_alarm] leaves an alarm
    1 image that reads back as exactly the seconds, minutes, hours and day
    asked for, with M1 to M4 and the day mode as the alarm type has them,
    whatever the bus answers and whatever the image held; the alarm 2, time
    and status images are not touched. *)
Theorem set_alarm_1_image (alarm_type second minute hour day : Z) (c : DS3231Component) :
  targets_alarm_1 alarm_type = true ->
  0 <= second <= 59 -> 0 <= minute <= 59 -> 0 <= hour <= 23 -> 0 <= day <= 31 ->
  let done := set_alarm alarm_type second minute hour day c in
  decode_alrm_1 (alrm_1 (ds3231_ (state done))) =
  alarm_1_fields alarm_type second minute hour day /\
  alrm_2 (ds3231_ (state done)) = alrm_2 (ds3231_ c) /\
  rtc (ds3231_ (state done)) = rtc (ds3231_ c) /\
  stat (ds3231_ (state done)) = stat (ds3231_ c).
Proof.
  intros Htarget Hs Hm Hh Hd done. unfold done, set_alarm. clear done.
  unfold targets_alarm_1 in Htarget. rewrite Htarget.
  run; (split; [ apply decode_encode_alrm_1; assumption | repeat split ]).
Qed.

(** X10 -- For alarm 2 and a time of day in range, [set_alarm] leaves an
    alarm 2 image that reads back as exactly the minutes, hours and day asked
    for, with M2 to M4 and the day mode as the alarm type has them, whatever
    the bus answers; the alarm 1, time and status images are not touched. *)
Theorem set_alarm_2_image (alarm_type second minute hour day : Z) (c : DS3231Component) :
  targets_alarm_1 alarm_type = false ->
  0 <= minute <= 59 -> 0 <= hour <= 23 -> 0 <= day <= 31 ->
  let done := set_alarm alarm_type second minute hour day c in
  decode_alrm_2 (alrm_2 (ds3231_ (state done))) =
  alarm_2_fields alarm_type minute hour day /\
  alrm_1 (ds3231_ (state done)) = alrm_1 (ds3231_ c) /\
  rtc (ds3231_ (state done)) = rtc (ds3231_ c) /\
  stat (ds3231_ (state done)) = stat (ds3231_ c).
Proof.
  intros Htarget Hm Hh Hd done. unfold done, set_alarm. clear done.
  unfold targets_alarm_1 in Htarget. rewrite Htarget.
  run; (split; [ apply decode_encode_alrm_2; assumption | repeat split ]).
Qed.

(** X11 -- For alarm 2 the seconds argument of [set_alarm] is not used: two
    calls that differ in it only have the same result, the same next state and
    the same effects. *)
Theorem set_alarm_2_ignores_second (alarm_type s1 s2 minute hour day : Z) (c : DS3231Component) :
  targets_alarm_1 alarm_type = false ->
  set_alarm alarm_type s1 minute hour day c = set_alarm alarm_type s2 minute hour day c.
Proof.
  intros Htarget. unfold set_alarm, bind.
  unfold targets_alarm_1 in Htarget.
  destruct (read_ctrl_ c) as [[ok c1] e1]. rewrite Htarget. reflexivity.
Qed.

(** X12 -- For alarm 1, a time of day in range and a bus that never refuses,
    the chip's alarm 1 registers (0x07 to 0x0A) read back after [set_alarm] as
    exactly what was asked for. *)
Theorem set_alarm_1_chip (alarm_type second minute hour day : Z) (c : DS3231Component) :
  script (bus c) = [] -> targets_alarm_1 alarm_type = true ->
  0 <= second <= 59 -> 0 <= minute <= 59 -> 0 <= hour <= 23 -> 0 <= day <= 31 ->
  let chip := regs (bus (state (set_alarm alarm_type second minute hour day c))) in
  decode_alrm_1 (raw_of_bytes (chip_bytes chip DS3231_ALARM_1_ADDRESS 4)) =
  alarm_1_fields alarm_type second minute hour day.
Proof.
  intros Hbus Htarget Hs Hm Hh Hd. destruct c as [img [r sc] f now]. cbn in Hbus. subst sc.
  unfold set_alarm. unfold targets_alarm_1 in Htarget. rewrite Htarget.
  run; sizes.
  all: rewrite ?chip_bytes_chip_store_other by reflexivity.
  all: rewrite chip_bytes_raw_bytes, decode_alrm_1_of_raw_bytes.
  all: apply decode_encode_alrm_1; assumption.
Qed.

(** X13 -- Over a bus that never refuses, [set_alarm] leaves the targeted
    alarm's interrupt enable in the chip's control register equal to the
    interrupt bit of the alarm type, and the other seven control bits (the
    other alarm's enable, the interrupt select, the rate, ...) as they were on
    the chip. *)
Theorem set_alarm_chip_enable (alarm_type second minute hour day : Z) (c : DS3231Component) :
  script (bus c) = [] ->
  let chip := regs (bus (state (set_alarm alarm_type second minute hour day c))) in
  Z.testbit (chip DS3231_CONTROL_ADDRESS) (bf_pos (alrm_int alarm_type)) =
  to_bool (Z.land alarm_type DS3231_ALARM_TYPE_INTERUPT) /\
  (forall i, 0 <= i < 8 -> i <> bf_pos (alrm_int alarm_type) ->
     Z.testbit (chip DS3231_CONTROL_ADDRESS) i =
     Z.testbit (regs (bus c) DS3231_CONTROL_ADDRESS) i).
Proof.
  intros Hbus. destruct c as [img [r sc] f now]. cbn in Hbus. subst sc.
  unfold set_alarm, alrm_int, targets_alarm_1.
  run; sizes.
  all: try (rewrite !testbit_chip_store_byte by (cbn; lia); split;
            [ rewrite <- get_flag_testbit by reflexivity;
              apply get_flag_set_flag; reflexivity
            | intros i Hi Hne; rewrite testbit_chip_store_byte by lia;
              rewrite set_flag_frame by (try reflexivity; lia);
              apply testbit_image_of_chip; assumption ]).
  all: frame_store; split; [ | reflexivity ].
  all: match goal with H : negb (Bool.eqb _ _) = false |- _ => apply eqb_negb_false in H end.
  all: match goal with H : _ = ?e |- _ = ?e => rewrite <- H end.
  all: rewrite get_flag_testbit by reflexivity.
  all: symmetry; apply testbit_image_of_chip; cbn; lia.
Qed.

Lemma set_alarm_1_image_witness :
  let c := component_on 0xFF [false; false] midnight in
  targets_alarm_1 0x4F = true /\
  decode_alrm_1 (alrm_1 (ds3231_ (state (set_alarm 0x4F 59 0 23 31 c)))) =
  mkAlarm1 59 0 23 31 true true true true false.
Proof.
  intros c.
  assert (Htarget : targets_alarm_1 0x4F = true) by reflexivity.
  pose proof (set_alarm_1_image 0x4F 59 0 23 31 c Htarget) as H. cbv zeta in H.
  destruct H as [Himage _]; try lia.
  exact (conj Htarget Himage).
Defined.

Lemma set_alarm_2_image_witness :
  let c := component_on 0xFF [false; false] midnight in
  targets_alarm_1 0xCE = false /\
  decode_alrm_2 (alrm_2 (ds3231_ (state (set_alarm 0xCE 30 15 8 1 c)))) =
  mkAlarm2 15 8 1 true true true false.
Proof.
  intros c.
  assert (Htarget : targets_alarm_1 0xCE = false) by reflexivity.
  pose proof (set_alarm_2_image 0xCE 30 15 8 1 c Htarget) as H. cbv zeta in H.
  destruct H as [Himage _]; try lia.
  exact (conj Htarget Himage).
Defined.

Lemma set_alarm_2_ignores_second_witness :
  let c := component_on 0x55 [] midnight in
  targets_alarm_1 0xCE = false /\
  events (set_alarm 0xCE 0 15 8 1 c) = events (set_alarm 0xCE 59 15 8 1 c).
Proof.
  intros c.
  assert (Htarget : targets_alarm_1 0xCE = false) by reflexivity.
  split; [ exact Htarget | ].
  rewrite (set_alarm_2_ignores_second 0xCE 0 59 15 8 1 c Htarget). reflexivity.
Defined.

Lemma set_alarm_1_chip_witness :
  let c := component_on 0xFF [] midnight in
  let chip := regs (bus (state (set_alarm 0x4F 59 0 23 31 c))) in
  (script (bus c) = [] /\ targets_alarm_1 0x4F = true) /\
  decode_alrm_1 (raw_of_bytes (chip_bytes chip DS3231_ALARM_1_ADDRESS 4)) =
  mkAlarm1 59 0 23 31 true true true true false.
Proof.
  intros c chip.
  assert (Hbus : script (bus c) = []) by reflexivity.
  assert (Htarget : targets_alarm_1 0x4F = true) by reflexivity.
  pose proof (set_alarm_1_chip 0x4F 59 0 23 31 c Hbus Htarget) as H. cbv zeta in H.
  split; [ exact (conj Hbus Htarget) | ].
  apply H; lia.
Defined.

Lemma set_alarm_chip_enable_witness :
  let c := component_on 0x55 [] midnight in
  let chip := regs (bus (state (set_alarm 0xCE 30 15 8 1 c))) in
  script (bus c) = [] /\
  Z.testbit (chip DS3231_CONTROL_ADDRESS) 1 = true /\
  Z.testbit (chip DS3231_CONTROL_ADDRESS) 0 = Z.testbit 0x55 0.
Proof.
  intros c chip.
  assert (Hbus : script (bus c) = []) by reflexivity.
  pose proof (set_alarm_chip_enable 0xCE 30 15 8 1 c Hbus) as H. cbv zeta in H.
  destruct H as [Henable Hframe].
  assert (Hi : 0 <= 0 < 8) by lia.
  assert (Hne : 0 <> bf_pos (alrm_int 0xCE)) by (cbn; lia).
  exact (conj Hbus (conj Henable (Hframe 0 Hi Hne))).
Defined.

(** ** Alarm acknowledgement, further *)

(** X14 -- Over a bus that never refuses, [reset_alarm] leaves the alarm's
    active flag clear in the chip's status register and the other seven
    status bits (the other alarm's flag among them) as they were on the
    chip. *)
Theorem reset_alarm_chip (alarm_number : DS3231AlarmNumber) (c : DS3231Component) :
  script (bus c) = [] ->
  let chip := regs (bus (state (reset_alarm alarm_number c))) in
  Z.testbit (chip DS3231_STATUS_ADDRESS) (bf_pos (alrm_act alarm_number)) = false /\
  (forall i, 0 <= i < 8 -> i <> bf_pos (alrm_act alarm_number) ->
     Z.testbit (chip DS3231_STATUS_ADDRESS) i =
     Z.testbit (regs (bus c) DS3231_STATUS_ADDRESS) i).
Proof.
  intros Hbus. destruct c as [img [r sc] f now]. cbn in Hbus. subst sc.
  unfold reset_alarm. destruct alarm_number; run; sizes.
  all: rewrite !testbit_chip_store_byte by (cbn; lia).
  all: split;
    [ rewrite <- get_flag_testbit by reflexivity
    | intros i Hi Hne; rewrite testbit_chip_store_byte by lia ].
  all: try (apply get_flag_set_flag; reflexivity).
  all: try (rewrite set_flag_frame by (try reflexivity; lia)).
  all: try (apply testbit_image_of_chip; assumption).
  all: clash.
  all: cbn [is_alarm_1 is_alarm_2 andb] in *; assumption.
Qed.

Lemma reset_alarm_chip_witness :
  let c := component_on 0x83 [] midnight in
  let chip := regs (bus (state (reset_alarm ALARM_2 c))) in
  script (bus c) = [] /\
  Z.testbit (chip DS3231_STATUS_ADDRESS) 1 = false /\
  Z.testbit (chip DS3231_STATUS_ADDRESS) 0 = Z.testbit 0x83 0.
Proof.
  intros c chip.
  assert (Hbus : script (bus c) = []) by reflexivity.
  pose proof (reset_alarm_chip ALARM_2 c Hbus) as H. cbv zeta in H.
  destruct H as [Hclear Hframe].
  assert (Hi : 0 <= 0 < 8) by lia.
  assert (Hne : 0 <> bf_pos (alrm_act ALARM_2)) by (cbn; lia).
  exact (conj Hbus (conj Hclear (Hframe 0 Hi Hne))).
Defined.

(** ** Square-wave mode, further *)

Section SquareWaveFurther.

Variable ALARM_INTERUPT_value : Z.

(** X15 -- Whatever the mode and the state, every bus write of
    [set_sqw_mode] is one byte to the control register, and that byte differs
    from the control image just read in the interrupt select and the rate
    (bits 2 to 4) at most: both alarm enables (bits 0 and 1) and bits 5 to 7
    are the bits read. *)
Theorem set_sqw_mode_control_frame (mode : DS3231SquareWaveMode) (c : DS3231Component)
    (address : Z) (data : list Z) :
  let read := ctrl (ds3231_ (state (read_ctrl_ c))) in
  In (address, data) (bus_writes (events (set_sqw_mode ALARM_INTERUPT_value mode c))) ->
  address = DS3231_CONTROL_ADDRESS /\
  exists written,
    data = raw_bytes 1 written /\
    forall i, 0 <= i -> i < 2 \/ 5 <= i -> Z.testbit written i = Z.testbit read i.
Proof.
  intros read. unfold read, set_sqw_mode. clear read.
  run; intros Hin; try contradiction.
  all: destruct Hin as [Hin | []]; injection Hin as <- <-.
  all: split; [ reflexivity | eexists; split; [ reflexivity | ] ].
  all: intros i Hi Hout; unfold set_flag.
  all: rewrite !set_field_frame by (try reflexivity; try assumption; cbn; lia).
  all: reflexivity.
Qed.

(** X16 -- Asked for a rate over a bus that never refuses, [set_sqw_mode]
    leaves the chip's control register with the interrupt select clear and
    the rate field equal to the rate's value. *)
Theorem set_sqw_mode_rate_selected (mode : DS3231SquareWaveMode) (c : DS3231Component) :
  is_alarm_interupt mode = false -> script (bus c) = [] ->
  let chip := regs (bus (state (set_sqw_mode ALARM_INTERUPT_value mode c))) in
  let control := raw_of_bytes (chip_bytes chip DS3231_CONTROL_ADDRESS 1) in
  get_flag control Ctrl.int_ctrl = false /\
  get_field control Ctrl.rs = mode_value ALARM_INTERUPT_value mode.
Proof.
  intros Hmode Hbus. destruct c as [img [r sc] f now]. cbn in Hbus. subst sc.
  unfold set_sqw_mode. rewrite Hmode. run; sizes.
  - rewrite chip_bytes_raw_bytes. unfold get_flag.
    rewrite !get_field_raw_of_raw_bytes by reflexivity. fields.
    split; [ reflexivity | ].
    destruct mode; try discriminate Hmode; reflexivity.
  - match goal with H : _ || _ = false |- _ => apply orb_false_iff in H; destruct H as [H1 H2] end.
    split; [ exact H1 | ].
    apply negb_false_iff in H2. apply Z.eqb_eq in H2. exact H2.
Qed.

(** X18 -- Asked for the alarm interrupt while the chip is in square-wave
    mode (interrupt select clear), over a bus that never refuses,
    [set_sqw_mode] leaves the interrupt select set on the chip and the other
    seven control bits, the rate among them, as they were. *)
Theorem set_sqw_mode_interrupt_selected (c : DS3231Component) :
  script (bus c) = [] ->
  Z.testbit (regs (bus c) DS3231_CONTROL_ADDRESS) (bf_pos Ctrl.int_ctrl) = false ->
  let chip := regs (bus (state (set_sqw_mode ALARM_INTERUPT_value ALARM_INTERUPT c))) in
  Z.testbit (chip DS3231_CONTROL_ADDRESS) (bf_pos Ctrl.int_ctrl) = true /\
  (forall i, 0 <= i < 8 -> i <> bf_pos Ctrl.int_ctrl ->
     Z.testbit (chip DS3231_CONTROL_ADDRESS) i =
     Z.testbit (regs (bus c) DS3231_CONTROL_ADDRESS) i).
Proof.
  intros Hbus Hsqw. destruct c as [img [r sc] f now]. cbn in Hbus, Hsqw. subst sc.
  assert (Hflag : get_flag (raw_of_bytes (chip_bytes r DS3231_CONTROL_ADDRESS 1)) Ctrl.int_ctrl
                  = false).
  { rewrite get_flag_testbit by reflexivity.
    rewrite testbit_image_of_chip by (cbn; lia). exact Hsqw. }
  unfold set_sqw_mode. unfold_access. reduce. sizes. rewrite Hflag. reduce.
  rewrite !testbit_chip_store_byte by (cbn; lia). split.
  - rewrite <- get_flag_testbit by reflexivity. apply get_flag_set_flag; reflexivity.
  - intros i Hi Hne. rewrite testbit_chip_store_byte by lia.
    rewrite set_flag_frame by (try reflexivity; lia).
    apply testbit_image_of_chip. assumption.
Qed.

End SquareWaveFurther.

Lemma set_sqw_mode_control_frame_witness :
  let c := component_on 0x03 [] midnight in
  In (0x0E, [0x0B]) (bus_writes (events (set_sqw_mode 4 SQUARE_WAVE_1KHZ c))) /\
  exists written,
    [0x0B] = raw_bytes 1 written /\
    Z.testbit written 1 = Z.testbit (ctrl (ds3231_ (state (read_ctrl_ c)))) 1.
Proof.
  intros c.
  assert (Hin : In (0x0E, [0x0B]) (bus_writes (events (set_sqw_mode 4 SQUARE_WAVE_1KHZ c))))
    by (left; reflexivity).
  pose proof (set_sqw_mode_control_frame 4 SQUARE_WAVE_1KHZ c 0x0E [0x0B]) as H.
  cbv zeta in H. destruct (H Hin) as (_ & written & Hdata & Hframe).
  split; [ exact Hin | ].
  exists written. split; [ exact Hdata | ].
  apply Hframe; lia.
Defined.

Lemma set_sqw_mode_rate_selected_witness :
  let c := component_on 0x07 [] midnight in
  let chip := regs (bus (state (set_sqw_mode 4 SQUARE_WAVE_8KHZ c))) in
  let control := raw_of_bytes (chip_bytes chip DS3231_CONTROL_ADDRESS 1) in
  (is_alarm_interupt SQUARE_WAVE_8KHZ = false /\ script (bus c) = []) /\
  get_flag control Ctrl.int_ctrl = false /\ get_field control Ctrl.rs = 3.
Proof.
  intros c chip control.
  assert (Hmode : is_alarm_interupt SQUARE_WAVE_8KHZ = false) by reflexivity.
  assert (Hbus : script (bus c) = []) by reflexivity.
  exact (conj (conj Hmode Hbus) (set_sqw_mode_rate_selected 4 SQUARE_WAVE_8KHZ c Hmode Hbus)).
Defined.

Lemma set_sqw_mode_rate_twice_witness :
  let c := component_on 0x07 [] midnight in
  (is_alarm_interupt SQUARE_WAVE_8KHZ = false /\ script (bus c) = []) /\
  bus_writes (events (set_sqw_mode 4 SQUARE_WAVE_8KHZ c)) = [(0x0E, [0x1B])] /\
  bus_writes (events (set_sqw_mode 4 SQUARE_WAVE_8KHZ
                        (state (set_sqw_mode 4 SQUARE_WAVE_8KHZ c)))) = [].
Proof.
  intros c.
  assert (Hmode : is_alarm_interupt SQUARE_WAVE_8KHZ = false) by reflexivity.
  assert (Hbus : script (bus c) = []) by reflexivity.
  split; [ exact (conj Hmode Hbus) | split; [ reflexivity | ] ].
  exact (set_sqw_mode_rate_twice 4 SQUARE_WAVE_8KHZ c Hmode Hbus).
Defined.

Lemma set_sqw_mode_interrupt_selected_witness :
  let c := component_on 0x1B [] midnight in
  let chip := regs (bus (state (set_sqw_mode 4 ALARM_INTERUPT c))) in
  (script (bus c) = [] /\
   Z.testbit (regs (bus c) DS3231_CONTROL_ADDRESS) (bf_pos Ctrl.int_ctrl) = false) /\
  Z.testbit (chip DS3231_CONTROL_ADDRESS) 2 = true /\
  Z.testbit (chip DS3231_CONTROL_ADDRESS) 4 = Z.testbit 0x1B 4.
Proof.
  intros c chip.
  assert (Hbus : script (bus c) = []) by reflexivity.
  assert (Hsqw : Z.testbit (regs (bus c) DS3231_CONTROL_ADDRESS) (bf_pos Ctrl.int_ctrl) = false)
    by reflexivity.
  pose proof (set_sqw_mode_interrupt_selected 4 c Hbus Hsqw) as H. cbv zeta in H.
  destruct H as [Hset Hframe].
  assert (Hi : 0 <= 4 < 8) by lia.
  assert (Hne : 4 <> bf_pos Ctrl.int_ctrl) by (cbn; lia).
  exact (conj (conj Hbus Hsqw) (conj Hset (Hframe 4 Hi Hne))).
Defined.

(** ** What each operation leaves alone on the chip *)

Section FootprintFurther.

Variable is_valid : ESPTime -> bool.

(** X19 -- Whatever the bus answers, [reset_alarm] changes no chip register
    but the status register, [set_sqw_mode] none but the control register,
    [set_alarm] none outside 0x07 to 0x0A and the control register (so never
    0x0B to 0x0D, for either alarm), and [write_time] none outside the time
    registers 0x00 to 0x06 and the status register. *)
Theorem chip_write_footprint :
  (forall alarm_number c a, a <> DS3231_STATUS_ADDRESS ->
     regs (bus (state (reset_alarm alarm_number c))) a = regs (bus c) a) /\
  (forall value mode c a, a <> DS3231_CONTROL_ADDRESS ->
     regs (bus (state (set_sqw_mode value mode c))) a = regs (bus c) a) /\
  (forall alarm_type second minute hour day c a,
     ~ 0x07 <= a <= 0x0A -> a <> DS3231_CONTROL_ADDRESS ->
     regs (bus (state (set_alarm alarm_type second minute hour day c))) a = regs (bus c) a) /\
  (forall c a, ~ 0x00 <= a <= 0x06 -> a <> DS3231_STATUS_ADDRESS ->
     regs (bus (state (write_time is_valid c))) a = regs (bus c) a).
Proof.
  repeat apply conj.
  - intros alarm_number c a Ha. unfold reset_alarm. run; sizes; frame_store; reflexivity.
  - intros value mode c a Ha. unfold set_sqw_mode. run; sizes; frame_store; reflexivity.
  - intros alarm_type second minute hour day c a Ha1 Ha2. unfold set_alarm.
    run; sizes; frame_store; reflexivity.
  - intros c a Ha1 Ha2. unfold write_time. run; sizes; frame_store; reflexivity.
Qed.

End FootprintFurther.

Lemma chip_write_footprint_witness :
  let c := component_on 0x55 [] midnight in
  regs (bus (state (reset_alarm ALARM_1 c))) 0x0E = 0x55 /\
  regs (bus (state (set_sqw_mode 4 SQUARE_WAVE_1HZ c))) 0x0F = 0x55 /\
  regs (bus (state (set_alarm 0xCE 30 15 8 1 c))) 0x0B = 0x55 /\
  regs (bus (state (write_time fields_in_range c))) 0x07 = 0x55.
Proof.
  intros c.
  destruct (chip_write_footprint fields_in_range) as (H1 & H2 & H3 & H4).
  repeat apply conj.
  - rewrite H1 by (addresses; lia). reflexivity.
  - rewrite H2 by (addresses; lia). reflexivity.
  - rewrite H3 by (addresses; lia). reflexivity.
  - rewrite H4 by (addresses; lia). reflexivity.
Defined.
